(** * NetEq delay manager: a shallow embedding of
      [modules/audio_coding/neteq/delay_manager.cc] and its properties.

    The manager is a single mutable record; every member function is a
    function from the record (and the reading of the injected tick timer) to
    the new record and the returned value.  The histogram is an injected
    collaborator and is kept abstract behind an interface. *)

From Stdlib Require Import ZArith List Bool Lia.
Import ListNotations.
Local Open Scope Z_scope.

(** ** Machine integers

    [int] and [int32_t] are 32-bit two's-complement, [uint32_t] is the
    integers modulo 2^32.  Values are carried in [Z]; every arithmetic
    operation writes its wrap-around out.  (Signed overflow is undefined in
    C++; the model takes the two's-complement result, and statements that
    depend on the exact value carry a no-overflow hypothesis.) *)

Definition INT_MAX : Z := 2147483647.
Definition INT_MIN : Z := -2147483648.
Definition UINT32_MOD : Z := 4294967296.

Definition in_int (x : Z) : Prop := INT_MIN <= x <= INT_MAX.

(** [static_cast<uint32_t>] *)
Definition to_uint32 (x : Z) : Z := x mod UINT32_MOD.

(** [static_cast<int32_t>] / conversion to [int] *)
Definition to_int32 (x : Z) : Z := (x + 2147483648) mod UINT32_MOD - 2147483648.

Definition u32_sub (a b : Z) : Z := to_uint32 (a - b).

Definition int_add (a b : Z) : Z := to_int32 (a + b).
Definition int_sub (a b : Z) : Z := to_int32 (a - b).
Definition int_mul (a b : Z) : Z := to_int32 (a * b).
(** C++ [/] on [int]: truncation toward zero. *)
Definition int_div (a b : Z) : Z := to_int32 (Z.quot a b).

(** ** Constants of the anonymous namespace *)

Definition kMinBaseMinimumDelayMs : Z := 0.
Definition kMaxBaseMinimumDelayMs : Z := 10000.
Definition kMaxHistoryMs : Z := 2000.
Definition kDelayBuckets : Z := 100.
Definition kBucketSizeMs : Z := 20.
Definition kStartDelayMs : Z := 80.
Definition kMaxNumReorderedPackets : Z := 5.

(** ** Collaborators *)

(** The bucketed-quantile estimator, consumed through its interface only. *)
Class Histogram (H : Type) : Type := {
  NumBuckets : H -> Z;
  Add : Z -> H -> H;
  Quantile : Z -> H -> Z;
  ResetHistogram : H -> H
}.

(** Modelled from the spec: the timer source, which is not part of this
    file.  "GetNewStopwatch() -> handle; handle exposes ElapsedMs() -> int
    since its creation".  The manager only reads the timer, so the timer's
    current reading in milliseconds is an input of every call that consults
    it. *)
Definition TickTimer : Type := Z.

Record Stopwatch : Type := { started_at : Z }.

Definition GetNewStopwatch (tick_timer : TickTimer) : Stopwatch :=
  {| started_at := tick_timer |}.

Definition ElapsedMs (tick_timer : TickTimer) (w : Stopwatch) : Z :=
  tick_timer - started_at w.

(** Modelled from the spec: [rtc::SafeClamp] from
    [rtc_base/numerics/safe_minmax.h], which is not part of this file; the
    spec uses it as "clamp(base_minimum_delay_ms, 0, MinimumDelayUpperBound())". *)
Definition SafeClamp (x lo hi : Z) : Z :=
  if x <=? lo then lo else if hi <=? x then hi else x.

(** ** Data model *)

Record PacketDelay : Type := {
  iat_delay_ms : Z;
  timestamp : Z
}.

Record DelayManager (H : Type) : Type := mkDelayManager {
  first_packet_received_ : bool;
  max_packets_in_buffer_ : Z;
  histogram_ : H;
  histogram_quantile_ : Z;
  base_minimum_delay_ms_ : Z;
  effective_minimum_delay_ms_ : Z;
  minimum_delay_ms_ : Z;
  maximum_delay_ms_ : Z;
  packet_len_ms_ : Z;
  target_level_ms_ : Z;
  last_timestamp_ : Z;
  num_reordered_packets_ : Z;
  delay_history_ : list PacketDelay;
  packet_iat_stopwatch_ : Stopwatch
}.

Arguments mkDelayManager {H}.
Arguments first_packet_received_ {H}.
Arguments max_packets_in_buffer_ {H}.
Arguments histogram_ {H}.
Arguments histogram_quantile_ {H}.
Arguments base_minimum_delay_ms_ {H}.
Arguments effective_minimum_delay_ms_ {H}.
Arguments minimum_delay_ms_ {H}.
Arguments maximum_delay_ms_ {H}.
Arguments packet_len_ms_ {H}.
Arguments target_level_ms_ {H}.
Arguments last_timestamp_ {H}.
Arguments num_reordered_packets_ {H}.
Arguments delay_history_ {H}.
Arguments packet_iat_stopwatch_ {H}.

(** ** The arrival-delay history (no manager state besides the deque) *)

(** The [while] loop of [UpdateDelayHistory]: pop the front while it is
    older than [limit] timestamp units.  The deque is never empty when the
    loop runs (the packet has just been pushed), see
    [UpdateDelayHistory_nonempty]. *)
Fixpoint pop_front_while_old (ts limit : Z) (h : list PacketDelay)
  : list PacketDelay :=
  match h with
  | [] => []
  | d :: rest =>
      if limit <? u32_sub ts (timestamp d)
      then pop_front_while_old ts limit rest
      else h
  end.

(** [static_cast<uint32_t>(kMaxHistoryMs * sample_rate_hz / 1000)].  The
    product is an [int] product: where it overflows the source has no
    defined value, and the statements about this limit assume it does
    not ([kMaxHistoryMs * sample_rate_hz <= INT_MAX]). *)
Definition history_limit (sample_rate_hz : Z) : Z :=
  to_uint32 (int_div (int_mul kMaxHistoryMs sample_rate_hz) 1000).

Definition UpdateDelayHistory (iat_delay : Z) (ts : Z) (sample_rate_hz : Z)
  (h : list PacketDelay) : list PacketDelay :=
  let delay := {| iat_delay_ms := iat_delay; timestamp := ts |} in
  pop_front_while_old ts (history_limit sample_rate_hz) (h ++ [delay]).

Definition CalculateRelativePacketArrivalDelay (h : list PacketDelay) : Z :=
  fold_left
    (fun relative_delay delay =>
       Z.max (int_add relative_delay (iat_delay_ms delay)) 0)
    h 0.

Section Manager.

Context {H : Type} `{Histogram H}.

(** [IsNewerTimestamp] lives in [modules/include/module_common_types_public.h],
    which is not part of this file: it is a parameter of the development. *)
Variable IsNewerTimestamp : Z -> Z -> bool.

Local Abbreviation DM := (DelayManager H).

(** ** Bounds controller *)

Definition MinimumDelayUpperBound (s : DM) : Z :=
  let q75 :=
    int_div (int_mul (int_mul (max_packets_in_buffer_ s) (packet_len_ms_ s)) 3) 4 in
  let q75 := if 0 <? q75 then q75 else kMaxBaseMinimumDelayMs in
  let maximum_delay_ms :=
    if 0 <? maximum_delay_ms_ s then maximum_delay_ms_ s
    else kMaxBaseMinimumDelayMs in
  Z.min maximum_delay_ms q75.

Definition set_effective_minimum_delay_ms (v : Z) (s : DM) : DM :=
  mkDelayManager (first_packet_received_ s) (max_packets_in_buffer_ s)
    (histogram_ s) (histogram_quantile_ s) (base_minimum_delay_ms_ s)
    v (minimum_delay_ms_ s) (maximum_delay_ms_ s) (packet_len_ms_ s)
    (target_level_ms_ s) (last_timestamp_ s) (num_reordered_packets_ s)
    (delay_history_ s) (packet_iat_stopwatch_ s).

Definition set_minimum_delay_ms (v : Z) (s : DM) : DM :=
  mkDelayManager (first_packet_received_ s) (max_packets_in_buffer_ s)
    (histogram_ s) (histogram_quantile_ s) (base_minimum_delay_ms_ s)
    (effective_minimum_delay_ms_ s) v (maximum_delay_ms_ s) (packet_len_ms_ s)
    (target_level_ms_ s) (last_timestamp_ s) (num_reordered_packets_ s)
    (delay_history_ s) (packet_iat_stopwatch_ s).

Definition set_maximum_delay_ms (v : Z) (s : DM) : DM :=
  mkDelayManager (first_packet_received_ s) (max_packets_in_buffer_ s)
    (histogram_ s) (histogram_quantile_ s) (base_minimum_delay_ms_ s)
    (effective_minimum_delay_ms_ s) (minimum_delay_ms_ s) v (packet_len_ms_ s)
    (target_level_ms_ s) (last_timestamp_ s) (num_reordered_packets_ s)
    (delay_history_ s) (packet_iat_stopwatch_ s).

Definition set_base_minimum_delay_ms (v : Z) (s : DM) : DM :=
  mkDelayManager (first_packet_received_ s) (max_packets_in_buffer_ s)
    (histogram_ s) (histogram_quantile_ s) v
    (effective_minimum_delay_ms_ s) (minimum_delay_ms_ s) (maximum_delay_ms_ s)
    (packet_len_ms_ s) (target_level_ms_ s) (last_timestamp_ s)
    (num_reordered_packets_ s) (delay_history_ s) (packet_iat_stopwatch_ s).

Definition set_packet_len_ms (v : Z) (s : DM) : DM :=
  mkDelayManager (first_packet_received_ s) (max_packets_in_buffer_ s)
    (histogram_ s) (histogram_quantile_ s) (base_minimum_delay_ms_ s)
    (effective_minimum_delay_ms_ s) (minimum_delay_ms_ s) (maximum_delay_ms_ s)
    v (target_level_ms_ s) (last_timestamp_ s) (num_reordered_packets_ s)
    (delay_history_ s) (packet_iat_stopwatch_ s).

Definition UpdateEffectiveMinimumDelay (s : DM) : DM :=
  let base_minimum_delay_ms :=
    SafeClamp (base_minimum_delay_ms_ s) 0 (MinimumDelayUpperBound s) in
  set_effective_minimum_delay_ms
    (Z.max (minimum_delay_ms_ s) base_minimum_delay_ms) s.

Definition IsValidMinimumDelay (delay_ms : Z) (s : DM) : bool :=
  (0 <=? delay_ms) && (delay_ms <=? MinimumDelayUpperBound s).

Definition IsValidBaseMinimumDelay (delay_ms : Z) : bool :=
  (kMinBaseMinimumDelayMs <=? delay_ms) && (delay_ms <=? kMaxBaseMinimumDelayMs).

Definition SetMinimumDelay (delay_ms : Z) (s : DM) : bool * DM :=
  if negb (IsValidMinimumDelay delay_ms s) then (false, s)
  else (true, UpdateEffectiveMinimumDelay (set_minimum_delay_ms delay_ms s)).

Definition SetMaximumDelay (delay_ms : Z) (s : DM) : bool * DM :=
  if negb (delay_ms =? 0) &&
     ((delay_ms <? minimum_delay_ms_ s) || (delay_ms <? packet_len_ms_ s))
  then (false, s)
  else (true, UpdateEffectiveMinimumDelay (set_maximum_delay_ms delay_ms s)).

Definition SetBaseMinimumDelay (delay_ms : Z) (s : DM) : bool * DM :=
  if negb (IsValidBaseMinimumDelay delay_ms) then (false, s)
  else (true, UpdateEffectiveMinimumDelay (set_base_minimum_delay_ms delay_ms s)).

Definition GetBaseMinimumDelay (s : DM) : Z := base_minimum_delay_ms_ s.

(** Returns [0] on success and [-1] on failure, as the source does. *)
Definition SetPacketAudioLength (length_ms : Z) (s : DM) : Z * DM :=
  if length_ms <=? 0 then (-1, s)
  else (0, set_packet_len_ms length_ms s).

Definition TargetDelayMs (s : DM) : Z := target_level_ms_ s.

(** ** Reset and construction *)

Definition Reset (tick_timer : TickTimer) (s : DM) : DM :=
  mkDelayManager
    false
    (max_packets_in_buffer_ s)
    (ResetHistogram (histogram_ s))
    (histogram_quantile_ s)
    (base_minimum_delay_ms_ s)
    (effective_minimum_delay_ms_ s)
    (minimum_delay_ms_ s)
    (maximum_delay_ms_ s)
    0
    kStartDelayMs
    (last_timestamp_ s)
    0
    []
    (GetNewStopwatch tick_timer).

(** The constructor: the member initialisers, then [Reset()].  The members
    absent from the initialiser list are all assigned by [Reset()]. *)
Definition DelayManager_new (max_packets_in_buffer base_minimum_delay_ms
  histogram_quantile : Z) (tick_timer : TickTimer) (histogram : H) : DM :=
  Reset tick_timer
    (mkDelayManager false max_packets_in_buffer histogram histogram_quantile
       base_minimum_delay_ms base_minimum_delay_ms 0 0 0 kStartDelayMs 0 0 []
       (GetNewStopwatch tick_timer)).

(** ** Update *)

(** Lines 138-141: the deviation between actual and expected inter-arrival
    time of the packet. *)
Definition iat_delay_of (tick_timer : TickTimer) (ts sample_rate_hz : Z)
  (s : DM) : Z :=
  let expected_iat_ms :=
    int_div (int_mul 1000 (to_int32 (u32_sub ts (last_timestamp_ s))))
            sample_rate_hz in
  let iat_ms := to_int32 (ElapsedMs tick_timer (packet_iat_stopwatch_ s)) in
  int_sub iat_ms expected_iat_ms.

(** Lines 156-168: the new target level from the histogram's quantile and
    the bounds, applied in the source's order. *)
Definition new_target_level (histogram : H) (s : DM) : Z :=
  let bucket_index := Quantile (histogram_quantile_ s) histogram in
  let target := int_mul (int_add 1 bucket_index) kBucketSizeMs in
  let target := Z.max target (effective_minimum_delay_ms_ s) in
  let target :=
    if 0 <? maximum_delay_ms_ s then Z.min target (maximum_delay_ms_ s)
    else target in
  if 0 <? packet_len_ms_ s then
    let target := Z.max target (packet_len_ms_ s) in
    Z.min target
      (int_div (int_mul (int_mul 3 (max_packets_in_buffer_ s)) (packet_len_ms_ s)) 4)
  else target.

Definition Update (tick_timer : TickTimer) (ts sample_rate_hz : Z)
  (reset : bool) (s : DM) : option Z * DM :=
  if sample_rate_hz <=? 0 then (None, s)
  else if negb (first_packet_received_ s) || reset then
    (None,
     mkDelayManager true (max_packets_in_buffer_ s) (histogram_ s)
       (histogram_quantile_ s) (base_minimum_delay_ms_ s)
       (effective_minimum_delay_ms_ s) (minimum_delay_ms_ s)
       (maximum_delay_ms_ s) (packet_len_ms_ s) (target_level_ms_ s)
       ts 0 [] (GetNewStopwatch tick_timer))
  else
    let iat_delay := iat_delay_of tick_timer ts sample_rate_hz s in
    let reordered := negb (IsNewerTimestamp ts (last_timestamp_ s)) in
    let history :=
      if reordered then delay_history_ s
      else UpdateDelayHistory iat_delay ts sample_rate_hz (delay_history_ s) in
    let relative_delay :=
      if reordered then Z.max iat_delay 0
      else CalculateRelativePacketArrivalDelay history in
    let index := int_div relative_delay kBucketSizeMs in
    let histogram :=
      if index <? NumBuckets (histogram_ s) then Add index (histogram_ s)
      else histogram_ s in
    let target := new_target_level histogram s in
    if reordered && (num_reordered_packets_ s <? kMaxNumReorderedPackets) then
      (Some relative_delay,
       mkDelayManager (first_packet_received_ s) (max_packets_in_buffer_ s)
         histogram (histogram_quantile_ s) (base_minimum_delay_ms_ s)
         (effective_minimum_delay_ms_ s) (minimum_delay_ms_ s)
         (maximum_delay_ms_ s) (packet_len_ms_ s) target
         (last_timestamp_ s) (int_add (num_reordered_packets_ s) 1)
         history (packet_iat_stopwatch_ s))
    else
      (Some relative_delay,
       mkDelayManager (first_packet_received_ s) (max_packets_in_buffer_ s)
         histogram (histogram_quantile_ s) (base_minimum_delay_ms_ s)
         (effective_minimum_delay_ms_ s) (minimum_delay_ms_ s)
         (maximum_delay_ms_ s) (packet_len_ms_ s) target
         ts 0 (if reordered then [] else history)
         (GetNewStopwatch tick_timer)).

(** ** Call sequences

    The public mutating operations, as data, so that properties can be
    stated over arbitrary interleavings. *)

Inductive Call : Type :=
| CallSetMinimumDelay (delay_ms : Z)
| CallSetMaximumDelay (delay_ms : Z)
| CallSetBaseMinimumDelay (delay_ms : Z)
| CallSetPacketAudioLength (length_ms : Z)
| CallUpdate (tick_timer : TickTimer) (ts sample_rate_hz : Z) (reset : bool)
| CallReset (tick_timer : TickTimer).

Definition step (c : Call) (s : DM) : DM :=
  match c with
  | CallSetMinimumDelay d => snd (SetMinimumDelay d s)
  | CallSetMaximumDelay d => snd (SetMaximumDelay d s)
  | CallSetBaseMinimumDelay d => snd (SetBaseMinimumDelay d s)
  | CallSetPacketAudioLength l => snd (SetPacketAudioLength l s)
  | CallUpdate t ts r b => snd (Update t ts r b s)
  | CallReset t => Reset t s
  end.

Definition run (cs : list Call) (s : DM) : DM :=
  fold_left (fun st c => step c st) cs s.

End Manager.

(** ** Specification-side definitions

    These follow the wording of the specification and are compared with the
    definitions above. *)

(** "let q75 = floor(3 * max_packets_in_buffer * packet_len_ms / 4); if
    q75 == 0 treat it as unconstrained (10000).  Let max_bound =
    maximum_delay_ms if set, else 10000.  Result = min(max_bound, q75)". *)
Definition spec_MinimumDelayUpperBound {H : Type} (s : DelayManager H) : Z :=
  let q75 := (3 * max_packets_in_buffer_ s * packet_len_ms_ s) / 4 in
  let q75 := if q75 =? 0 then 10000 else q75 in
  let max_bound :=
    if 0 <? maximum_delay_ms_ s then maximum_delay_ms_ s else 10000 in
  Z.min max_bound q75.

(** [clamp(x, lo, hi)] on mathematical integers. *)
Definition spec_clamp (x lo hi : Z) : Z := Z.max lo (Z.min x hi).

(** "the running sum of iat_delay_ms across history in arrival order,
    clamped to >= 0 at every step", on mathematical integers: the value
    after the samples [ds] followed by [d] is the value after [ds], plus
    [d], clamped. *)
Definition running_sum_clamped (ds : list Z) : Z :=
  fold_right (fun d acc => Z.max 0 (acc + d)) 0 (rev ds).

(** The positive parts of the samples bound every partial sum. *)
Definition positive_part_sum (ds : list Z) : Z :=
  fold_right (fun d acc => Z.max d 0 + acc) 0 ds.

(** The samples for which the running sum never leaves [int]. *)
Definition sum_fits_int (ds : list Z) : Prop :=
  Forall in_int ds /\ positive_part_sum ds <= INT_MAX.

(** "effective_minimum_delay_ms <= target_level_ms, and if
    maximum_delay_ms > 0 then target_level_ms <= maximum_delay_ms". *)
Definition bounds_hold {H : Type} (s : DelayManager H) : Prop :=
  effective_minimum_delay_ms_ s <= target_level_ms_ s /\
  (0 < maximum_delay_ms_ s -> target_level_ms_ s <= maximum_delay_ms_ s).

(** The 75%-of-buffer ceiling that [Update] applies last (line 167). *)
Definition buffer_ceiling {H : Type} (s : DelayManager H) : Z :=
  int_div (int_mul (int_mul 3 (max_packets_in_buffer_ s)) (packet_len_ms_ s)) 4.

(** The configuration invariant established by the three bound setters. *)
Definition config_ok {H : Type} (s : DelayManager H) : Prop :=
  0 <= minimum_delay_ms_ s /\
  (0 < maximum_delay_ms_ s ->
   minimum_delay_ms_ s <= maximum_delay_ms_ s /\
   effective_minimum_delay_ms_ s <= maximum_delay_ms_ s).

(** [delay_history_.clear()] on its own. *)
Definition clear_history {H : Type} (s : DelayManager H) : DelayManager H :=
  mkDelayManager (first_packet_received_ s) (max_packets_in_buffer_ s)
    (histogram_ s) (histogram_quantile_ s) (base_minimum_delay_ms_ s)
    (effective_minimum_delay_ms_ s) (minimum_delay_ms_ s) (maximum_delay_ms_ s)
    (packet_len_ms_ s) (target_level_ms_ s) (last_timestamp_ s)
    (num_reordered_packets_ s) [] (packet_iat_stopwatch_ s).

(** States in which the next valid [Update] is the first one: right after
    construction or [Reset()], possibly followed by setter calls and by
    [Update] calls with an invalid rate; or any state when the call carries
    [reset = true]. *)
Inductive restarts {H : Type} `{Histogram H} (newer : Z -> Z -> bool)
  : DelayManager H -> bool -> Prop :=
| restarts_constructed (m b q : Z) (t : TickTimer) (h : H) (reset : bool) :
    restarts newer (DelayManager_new m b q t h) reset
| restarts_after_Reset (t : TickTimer) (s : DelayManager H) (reset : bool) :
    restarts newer (Reset t s) reset
| restarts_flag (s : DelayManager H) :
    restarts newer s true
| restarts_SetMinimumDelay (d : Z) (s : DelayManager H) (reset : bool) :
    restarts newer s reset -> restarts newer (snd (SetMinimumDelay d s)) reset
| restarts_SetMaximumDelay (d : Z) (s : DelayManager H) (reset : bool) :
    restarts newer s reset -> restarts newer (snd (SetMaximumDelay d s)) reset
| restarts_SetBaseMinimumDelay (d : Z) (s : DelayManager H) (reset : bool) :
    restarts newer s reset -> restarts newer (snd (SetBaseMinimumDelay d s)) reset
| restarts_SetPacketAudioLength (d : Z) (s : DelayManager H) (reset : bool) :
    restarts newer s reset -> restarts newer (snd (SetPacketAudioLength d s)) reset
| restarts_invalid_Update (t : TickTimer) (ts r : Z) (b : bool)
    (s : DelayManager H) (reset : bool) :
    r <= 0 ->
    restarts newer s reset -> restarts newer (snd (Update newer t ts r b s)) reset.

(** A packet as [Update] receives it in steady state ([reset = false]). *)
Record Packet : Type := {
  arrival : TickTimer;
  rtp_timestamp : Z;
  rate_hz : Z
}.

Definition feed {H : Type} `{Histogram H} (newer : Z -> Z -> bool)
  (ps : list Packet) (s : DelayManager H) : DelayManager H :=
  fold_left
    (fun st p => snd (Update newer (arrival p) (rtp_timestamp p) (rate_hz p) false st))
    ps s.

(** [p] is a reordered packet with a valid rate, relative to [last]. *)
Definition reordered_wrt (newer : Z -> Z -> bool) (last : Z) (p : Packet) : Prop :=
  0 < rate_hz p /\ newer (rtp_timestamp p) last = false.

(** Every entry of [h] is at most [limit] timestamp units older than
    [newest], under unsigned 32-bit subtraction. *)
Definition within_horizon (newest limit : Z) (h : list PacketDelay) : Prop :=
  Forall (fun d => u32_sub newest (timestamp d) <= limit) h.

(** The ages of the entries, relative to [newest], never increase along the
    deque. *)
Fixpoint ages_descend (newest : Z) (h : list PacketDelay) : Prop :=
  match h with
  | [] => True
  | d :: rest =>
      Forall (fun e => u32_sub newest (timestamp e) <= u32_sub newest (timestamp d)) rest
      /\ ages_descend newest rest
  end.

(** The timestamp of the most recently appended sample, if any. *)
Definition newest_timestamp (h : list PacketDelay) : option Z :=
  match rev h with
  | [] => None
  | d :: _ => Some (timestamp d)
  end.

(** "2000 ms, scaled to timestamp units by the sample rate". *)
Definition spec_horizon (sample_rate_hz : Z) : Z :=
  2000 * sample_rate_hz / 1000.

(** The horizon in force after a call sequence: the one of the most recent
    call that appended a sample (ghost state). *)
Definition horizon_step {H : Type} (newer : Z -> Z -> bool) (c : Call)
  (s : DelayManager H) (limit : Z) : Z :=
  match c with
  | CallUpdate _ ts r reset =>
      if (0 <? r) && first_packet_received_ s && negb reset
         && newer ts (last_timestamp_ s)
      then spec_horizon r else limit
  | _ => limit
  end.

Fixpoint run_horizon {H : Type} `{Histogram H} (newer : Z -> Z -> bool)
  (cs : list Call) (s : DelayManager H) (limit : Z) : DelayManager H * Z :=
  match cs with
  | [] => (s, limit)
  | c :: rest =>
      run_horizon newer rest (step newer c s) (horizon_step newer c s limit)
  end.

(** The invariant of the history deque: when it is not empty its newest
    entry carries [last_timestamp_], ages descend along it, and every entry
    is within [limit] of the newest. *)
Definition history_ok {H : Type} (s : DelayManager H) (limit : Z) : Prop :=
  0 <= limit < 2147483648 /\
  (delay_history_ s = [] \/
   (newest_timestamp (delay_history_ s) = Some (last_timestamp_ s) /\
    ages_descend (last_timestamp_ s) (delay_history_ s) /\
    within_horizon (last_timestamp_ s) limit (delay_history_ s))).

(** The sample rates for which [kMaxHistoryMs * sample_rate_hz] does not
    overflow [int]. *)
Definition rate_in_range (c : Call) : Prop :=
  match c with
  | CallUpdate _ _ r _ => kMaxHistoryMs * r <= INT_MAX
  | _ => True
  end.

(** ** Concrete collaborators, to run the manager on examples *)

(** An undecayed tally of observations per bucket, implementing the
    histogram interface. *)
Record Tally : Type := { tally_counts : list Z }.

Fixpoint tally_add (i : nat) (l : list Z) : list Z :=
  match l, i with
  | [], _ => []
  | c :: rest, O => (c + 1) :: rest
  | c :: rest, S j => c :: tally_add j rest
  end.

Fixpoint tally_quantile (need acc i : Z) (l : list Z) : Z :=
  match l with
  | [] => i
  | c :: rest =>
      if need <=? acc + c then i else tally_quantile need (acc + c) (i + 1) rest
  end.

Definition tally_total (l : list Z) : Z := fold_right Z.add 0 l.

#[export] Instance Tally_Histogram : Histogram Tally := {
  NumBuckets t := Z.of_nat (length (tally_counts t));
  Add i t := {| tally_counts := tally_add (Z.to_nat i) (tally_counts t) |};
  Quantile q t :=
    tally_quantile (q * tally_total (tally_counts t)) 0 0
      (map (fun c => c * 1073741824) (tally_counts t));
  ResetHistogram t :=
    {| tally_counts := map (fun _ => 0) (tally_counts t) |}
}.

Definition empty_tally : Tally :=
  {| tally_counts := repeat 0 (Z.to_nat kDelayBuckets) |}.

(** Modelled from the spec: "timestamp subtraction must be performed with
    unsigned 32-bit wraparound semantics and then reinterpreted as signed";
    a timestamp is strictly newer when that signed difference is positive.
    Used to instantiate the [IsNewerTimestamp] parameter on examples. *)
Definition newer_by_signed_delta (value prev_value : Z) : bool :=
  0 <? to_int32 (u32_sub value prev_value).

(** A manager as [Create] builds it with default configuration: 200
    packets of buffer, no base minimum delay, the 0.97 quantile. *)
Definition fresh_manager : DelayManager Tally :=
  DelayManager_new 200 0 1041529569 0 empty_tally.

(** [fresh_manager] after a first packet at time 0, timestamp 0, 8 kHz. *)
Definition tracking_manager : DelayManager Tally :=
  snd (Update newer_by_signed_delta 0 0 8000 false fresh_manager).

(** Scenario D of the specification: packets of 20 ms and a minimum delay
    of 40 ms on the default manager. *)
Definition scenario_manager : DelayManager Tally :=
  snd (SetMinimumDelay 40 (snd (SetPacketAudioLength 20 fresh_manager))).

(** A packet whose timestamp is 160 units behind timestamp 0 (20 ms at
    8 kHz, across the wrap-around), arriving at time [t]. *)
Definition late_packet (t : TickTimer) : Packet :=
  {| arrival := t; rtp_timestamp := 4294967136; rate_hz := 8000 |}.

(** [tracking_manager] once the packet length is known to be 20 ms. *)
Definition packetized_manager : DelayManager Tally :=
  snd (SetPacketAudioLength 20 tracking_manager).

(** A manager whose first packet carried a timestamp 160 units below the
    32-bit wrap-around. *)
Definition wrapping_manager : DelayManager Tally :=
  snd (Update newer_by_signed_delta 0 4294967136 8000 false fresh_manager).

(** [fresh_manager] after three packets 20 ms apart in timestamps, the
    second arriving 5 ms late and the third 10 ms early: the history holds
    the samples 5 and -10. *)
Definition warm_manager : DelayManager Tally :=
  run newer_by_signed_delta
    [CallUpdate 0 0 8000 false; CallUpdate 25 160 8000 false;
     CallUpdate 35 320 8000 false]
    fresh_manager.

(** A manager constructed with the capacity -3, once the packet length is
    known to be 7 ms. *)
Definition negative_capacity_manager : DelayManager Tally :=
  snd (SetPacketAudioLength 7 (DelayManager_new (-3) 0 1041529569 0 empty_tally)).

(** [MinimumDelayUpperBound()] as the code computes it, on mathematical
    integers: the division truncates toward zero and every [q75] that is
    not positive counts as unconstrained. *)
Definition truncating_MinimumDelayUpperBound {H : Type} (s : DelayManager H) : Z :=
  let q75 := Z.quot (3 * max_packets_in_buffer_ s * packet_len_ms_ s) 4 in
  let q75 := if 0 <? q75 then q75 else 10000 in
  let max_bound :=
    if 0 <? maximum_delay_ms_ s then maximum_delay_ms_ s else 10000 in
  Z.min max_bound q75.

(** ** Invariants of the reachable managers *)

(** The bound configuration as the setters keep it. *)
Definition bounds_config_ok {H : Type} (s : DelayManager H) : Prop :=
  0 <= minimum_delay_ms_ s /\
  0 <= maximum_delay_ms_ s /\
  0 <= packet_len_ms_ s /\
  kMinBaseMinimumDelayMs <= base_minimum_delay_ms_ s <= kMaxBaseMinimumDelayMs /\
  minimum_delay_ms_ s <= effective_minimum_delay_ms_ s /\
  (0 < maximum_delay_ms_ s ->
   minimum_delay_ms_ s <= maximum_delay_ms_ s /\
   effective_minimum_delay_ms_ s <= maximum_delay_ms_ s).

(** The calls that leave the bound configuration alone. *)
Definition is_bound_setter (c : Call) : bool :=
  match c with
  | CallSetMinimumDelay _ | CallSetMaximumDelay _ | CallSetBaseMinimumDelay _ => true
  | _ => false
  end.

Definition is_Reset (c : Call) : bool :=
  match c with
  | CallReset _ => true
  | _ => false
  end.

(** An [Update] call that passes the sample-rate guard. *)
Definition is_valid_Update (c : Call) : bool :=
  match c with
  | CallUpdate _ _ r _ => 0 <? r
  | _ => false
  end.

(** The age of a sample relative to [newest], in timestamp units. *)
Definition age (newest : Z) (d : PacketDelay) : Z :=
  u32_sub newest (timestamp d).

(** Ages strictly decrease along the deque. *)
Fixpoint ages_strictly_descend (newest : Z) (h : list PacketDelay) : Prop :=
  match h with
  | [] => True
  | d :: rest =>
      Forall (fun e => age newest e < age newest d) rest
      /\ ages_strictly_descend newest rest
  end.

(** The deque invariant with strict ages: it bounds the deque's length. *)
Definition history_compact {H : Type} (s : DelayManager H) (limit : Z) : Prop :=
  0 <= limit < 2147483648 /\
  (delay_history_ s = [] \/
   (newest_timestamp (delay_history_ s) = Some (last_timestamp_ s) /\
    ages_strictly_descend (last_timestamp_ s) (delay_history_ s) /\
    Forall (fun d => age (last_timestamp_ s) d <= limit) (delay_history_ s))).

(** * Properties *)

(** ** Machine integers *)

Lemma to_int32_range (x : Z) : in_int (to_int32 x).
Proof.
  unfold in_int, to_int32, INT_MIN, INT_MAX, UINT32_MOD.
  pose proof (Z.mod_pos_bound (x + 2147483648) 4294967296 eq_refl). lia.
Qed.

Lemma to_int32_small (x : Z) : in_int x -> to_int32 x = x.
Proof.
  unfold in_int, to_int32, INT_MIN, INT_MAX, UINT32_MOD. intros Hx.
  rewrite Z.mod_small; lia.
Qed.

Lemma to_uint32_range (x : Z) : 0 <= to_uint32 x < UINT32_MOD.
Proof. unfold to_uint32, UINT32_MOD. apply Z.mod_pos_bound. reflexivity. Qed.

Lemma to_uint32_small (x : Z) : 0 <= x < UINT32_MOD -> to_uint32 x = x.
Proof. unfold to_uint32. apply Z.mod_small. Qed.

Lemma u32_sub_diag (a : Z) : u32_sub a a = 0.
Proof. unfold u32_sub, to_uint32. rewrite Z.sub_diag. reflexivity. Qed.

Lemma SafeClamp_spec_clamp (x lo hi : Z) :
  lo <= hi -> SafeClamp x lo hi = spec_clamp x lo hi.
Proof.
  intros Hle. unfold SafeClamp, spec_clamp.
  destruct (Z.leb_spec x lo); [lia|].
  destruct (Z.leb_spec hi x); lia.
Qed.

Section Properties.

Context {H : Type} `{Histogram H}.
Variable IsNewerTimestamp : Z -> Z -> bool.

(** ** Bounds controller *)

Lemma MinimumDelayUpperBound_pos (s : DelayManager H) : 0 < MinimumDelayUpperBound s.
Proof.
  unfold MinimumDelayUpperBound, kMaxBaseMinimumDelayMs.
  destruct (Z.ltb_spec 0
    (int_div (int_mul (int_mul (max_packets_in_buffer_ s) (packet_len_ms_ s)) 3) 4));
  destruct (Z.ltb_spec 0 (maximum_delay_ms_ s)); lia.
Qed.

Lemma MinimumDelayUpperBound_le_maximum (s : DelayManager H) :
  0 < maximum_delay_ms_ s -> MinimumDelayUpperBound s <= maximum_delay_ms_ s.
Proof.
  intros Hm. unfold MinimumDelayUpperBound.
  destruct (Z.ltb_spec 0 (maximum_delay_ms_ s)); lia.
Qed.

Lemma UpdateEffectiveMinimumDelay_value (s : DelayManager H) :
  effective_minimum_delay_ms_ (UpdateEffectiveMinimumDelay s) =
  Z.max (minimum_delay_ms_ s)
        (spec_clamp (base_minimum_delay_ms_ s) 0 (MinimumDelayUpperBound s)).
Proof.
  cbn. rewrite SafeClamp_spec_clamp; [reflexivity|].
  pose proof (MinimumDelayUpperBound_pos s). lia.
Qed.

(** C10: the four setters never touch [target_level_ms_], whether they
    accept or reject their argument; a tightened bound reaches the
    published target only through a later [Update]. *)
Theorem setters_leave_target_level (delay_ms : Z) (s : DelayManager H) :
  target_level_ms_ (snd (SetMinimumDelay delay_ms s)) = target_level_ms_ s /\
  target_level_ms_ (snd (SetMaximumDelay delay_ms s)) = target_level_ms_ s /\
  target_level_ms_ (snd (SetBaseMinimumDelay delay_ms s)) = target_level_ms_ s /\
  target_level_ms_ (snd (SetPacketAudioLength delay_ms s)) = target_level_ms_ s /\
  TargetDelayMs (snd (SetMinimumDelay delay_ms s)) = TargetDelayMs s.
Proof.
  unfold SetMinimumDelay, SetMaximumDelay, SetBaseMinimumDelay,
    SetPacketAudioLength, TargetDelayMs.
  repeat split.
  - destruct (negb (IsValidMinimumDelay delay_ms s)); reflexivity.
  - destruct (negb (delay_ms =? 0) &&
              ((delay_ms <? minimum_delay_ms_ s) || (delay_ms <? packet_len_ms_ s)));
      reflexivity.
  - destruct (negb (IsValidBaseMinimumDelay delay_ms)); reflexivity.
  - destruct (delay_ms <=? 0); reflexivity.
  - destruct (negb (IsValidMinimumDelay delay_ms s)); reflexivity.
Qed.

Lemma SetMaximumDelay_cases (delay_ms : Z) (s : DelayManager H) :
  (delay_ms <> 0 /\
   (delay_ms < minimum_delay_ms_ s \/ delay_ms < packet_len_ms_ s) /\
   SetMaximumDelay delay_ms s = (false, s)) \/
  ((delay_ms = 0 \/
    (minimum_delay_ms_ s <= delay_ms /\ packet_len_ms_ s <= delay_ms)) /\
   SetMaximumDelay delay_ms s =
   (true, UpdateEffectiveMinimumDelay (set_maximum_delay_ms delay_ms s))).
Proof.
  unfold SetMaximumDelay.
  destruct (Z.eqb_spec delay_ms 0) as [E|E]; cbn [negb andb].
  - right. split; [left; assumption|reflexivity].
  - destruct (Z.ltb_spec delay_ms (minimum_delay_ms_ s)); cbn [orb].
    + left. repeat split; auto.
    + destruct (Z.ltb_spec delay_ms (packet_len_ms_ s)).
      * left. repeat split; auto.
      * right. split; [right; lia|reflexivity].
Qed.

(** C9: [SetMaximumDelay(0)] always succeeds and clears the constraint;
    a non-zero argument is accepted exactly when it is at least the minimum
    delay and at least the packet length; acceptance stores the argument and
    recomputes the effective minimum delay; rejection changes nothing. *)
Theorem SetMaximumDelay_contract (delay_ms : Z) (s : DelayManager H) :
  (fst (SetMaximumDelay 0 s) = true /\
   maximum_delay_ms_ (snd (SetMaximumDelay 0 s)) = 0) /\
  (delay_ms <> 0 ->
   (fst (SetMaximumDelay delay_ms s) = true <->
    minimum_delay_ms_ s <= delay_ms /\ packet_len_ms_ s <= delay_ms)) /\
  (fst (SetMaximumDelay delay_ms s) = true ->
   snd (SetMaximumDelay delay_ms s) =
     UpdateEffectiveMinimumDelay (set_maximum_delay_ms delay_ms s) /\
   maximum_delay_ms_ (snd (SetMaximumDelay delay_ms s)) = delay_ms /\
   effective_minimum_delay_ms_ (snd (SetMaximumDelay delay_ms s)) =
     Z.max (minimum_delay_ms_ s)
           (spec_clamp (base_minimum_delay_ms_ s) 0
              (MinimumDelayUpperBound (snd (SetMaximumDelay delay_ms s))))) /\
  (fst (SetMaximumDelay delay_ms s) = false ->
   snd (SetMaximumDelay delay_ms s) = s).
Proof.
  split; [|split; [|split]].
  - split; reflexivity.
  - intros Hnz.
    destruct (SetMaximumDelay_cases delay_ms s) as [(_ & Hlt & E)|([Hz|Hge] & E)];
      rewrite E; cbn [fst]; split; intros; try discriminate; try lia; reflexivity.
  - destruct (SetMaximumDelay_cases delay_ms s) as [(_ & _ & E)|(_ & E)];
      rewrite E; cbn [fst snd]; intros Hok; [discriminate|].
    split; [reflexivity|]. split; [reflexivity|].
    rewrite UpdateEffectiveMinimumDelay_value. reflexivity.
  - destruct (SetMaximumDelay_cases delay_ms s) as [(_ & _ & E)|(_ & E)];
      rewrite E; cbn [fst snd]; intros Hok; [reflexivity|discriminate].
Qed.

Lemma Update_nonpositive_rate (tick_timer : TickTimer) (ts sample_rate_hz : Z)
  (reset : bool) (s : DelayManager H) :
  sample_rate_hz <= 0 ->
  Update IsNewerTimestamp tick_timer ts sample_rate_hz reset s = (None, s).
Proof.
  intros Hr. unfold Update.
  destruct (Z.leb_spec sample_rate_hz 0); [reflexivity|lia].
Qed.

(** C7: with [sample_rate_hz <= 0], [Update] returns nothing and the whole
    manager is unchanged, whatever the reset flag and whether or not a
    packet has been received. *)
Theorem Update_invalid_rate_is_noop (tick_timer : TickTimer) (ts sample_rate_hz : Z)
  (reset : bool) (s : DelayManager H) :
  sample_rate_hz <= 0 ->
  Update IsNewerTimestamp tick_timer ts sample_rate_hz reset s = (None, s) /\
  snd (Update IsNewerTimestamp tick_timer ts sample_rate_hz reset s) = s.
Proof.
  intros Hr. rewrite Update_nonpositive_rate by assumption.
  split; reflexivity.
Qed.

Lemma Update_restart_any (tick_timer : TickTimer) (ts sample_rate_hz : Z)
  (reset : bool) (s : DelayManager H) :
  0 < sample_rate_hz ->
  first_packet_received_ s = false \/ reset = true ->
  Update IsNewerTimestamp tick_timer ts sample_rate_hz reset s =
  (None,
   mkDelayManager true (max_packets_in_buffer_ s) (histogram_ s)
     (histogram_quantile_ s) (base_minimum_delay_ms_ s)
     (effective_minimum_delay_ms_ s) (minimum_delay_ms_ s)
     (maximum_delay_ms_ s) (packet_len_ms_ s) (target_level_ms_ s)
     ts 0 [] (GetNewStopwatch tick_timer)).
Proof.
  intros Hr Hs. unfold Update.
  destruct (Z.leb_spec sample_rate_hz 0); [lia|].
  destruct Hs as [-> | ->]; [reflexivity|].
  rewrite orb_true_r. reflexivity.
Qed.

Lemma restarts_no_packet_yet (s : DelayManager H) (reset : bool) :
  restarts IsNewerTimestamp s reset ->
  first_packet_received_ s = false \/ reset = true.
Proof.
  induction 1 as [| | |d s reset _ IH|d s reset _ IH|d s reset _ IH
                 |d s reset _ IH|t ts r b s reset Hr _ IH];
    try (left; reflexivity); try (right; reflexivity);
    (destruct IH as [IH|IH]; [left|right; exact IH]).
  - unfold SetMinimumDelay.
    destruct (negb (IsValidMinimumDelay d s)); exact IH.
  - unfold SetMaximumDelay. destruct (negb (d =? 0) && _); exact IH.
  - unfold SetBaseMinimumDelay.
    destruct (negb (IsValidBaseMinimumDelay d)); exact IH.
  - unfold SetPacketAudioLength. destruct (d <=? 0); exact IH.
  - rewrite Update_nonpositive_rate by assumption. exact IH.
Qed.

(** C8: the first valid [Update] after construction, after [Reset()], or
    with [reset = true] returns nothing; it clears the history, restarts the
    stopwatch, records the timestamp, sets [first_packet_received_], clears
    the reorder counter, and leaves every other member, [target_level_ms_]
    included, as it was. *)
Theorem first_valid_Update_restarts (tick_timer : TickTimer) (ts sample_rate_hz : Z)
  (reset : bool) (s : DelayManager H) :
  restarts IsNewerTimestamp s reset ->
  0 < sample_rate_hz ->
  Update IsNewerTimestamp tick_timer ts sample_rate_hz reset s =
  (None,
   mkDelayManager true (max_packets_in_buffer_ s) (histogram_ s)
     (histogram_quantile_ s) (base_minimum_delay_ms_ s)
     (effective_minimum_delay_ms_ s) (minimum_delay_ms_ s)
     (maximum_delay_ms_ s) (packet_len_ms_ s) (target_level_ms_ s)
     ts 0 [] (GetNewStopwatch tick_timer)).
Proof.
  intros Hs Hr. apply Update_restart_any; [exact Hr|].
  apply restarts_no_packet_yet. exact Hs.
Qed.

(** ** The upper bound on the minimum delay *)

Lemma int_mul_small (a b : Z) : in_int (a * b) -> int_mul a b = a * b.
Proof. apply to_int32_small. Qed.

Lemma int_add_small (a b : Z) : in_int (a + b) -> int_add a b = a + b.
Proof. apply to_int32_small. Qed.

Lemma int_div_small (a b : Z) : in_int (Z.quot a b) -> int_div a b = Z.quot a b.
Proof. apply to_int32_small. Qed.

Lemma int_div_nonneg (a b : Z) :
  0 <= a <= INT_MAX -> 0 < b -> int_div a b = a / b.
Proof.
  intros Ha Hb. rewrite int_div_small; rewrite Z.quot_div_nonneg by lia.
  - reflexivity.
  - unfold in_int, INT_MIN, INT_MAX in *.
    pose proof (Z.div_pos a b ltac:(lia) Hb).
    pose proof (Z.div_le_upper_bound a b a Hb ltac:(nia)). lia.
Qed.

Lemma quot_in_int (a b : Z) : in_int a -> 0 < b -> in_int (Z.quot a b).
Proof.
  unfold in_int, INT_MIN, INT_MAX. intros Ha Hb.
  destruct (Z_le_gt_dec 0 a) as [Hnn|Hneg].
  - rewrite Z.quot_div_nonneg by lia.
    pose proof (Z.div_pos a b Hnn Hb).
    pose proof (Z.div_le_upper_bound a b a Hb ltac:(nia)). lia.
  - replace a with (- (- a)) by ring. rewrite Z.quot_opp_l by lia.
    rewrite Z.quot_div_nonneg by lia.
    pose proof (Z.div_pos (- a) b ltac:(lia) Hb).
    pose proof (Z.div_le_upper_bound (- a) b (- a) Hb ltac:(nia)). lia.
Qed.

Lemma step_packet_len_nonneg (c : Call) (s : DelayManager H) :
  0 <= packet_len_ms_ s ->
  0 <= packet_len_ms_ (step IsNewerTimestamp c s) /\
  max_packets_in_buffer_ (step IsNewerTimestamp c s) = max_packets_in_buffer_ s.
Proof.
  intros Hlen. destruct c as [d|d|d|d|t ts r reset|t]; cbn [step].
  - unfold SetMinimumDelay.
    destruct (negb (IsValidMinimumDelay d s)); split; assumption || reflexivity.
  - unfold SetMaximumDelay.
    destruct (negb (d =? 0) && _); split; assumption || reflexivity.
  - unfold SetBaseMinimumDelay.
    destruct (negb (IsValidBaseMinimumDelay d)); split; assumption || reflexivity.
  - unfold SetPacketAudioLength.
    destruct (Z.leb_spec d 0); cbn; split; try assumption; try reflexivity. lia.
  - unfold Update.
    destruct (r <=? 0); [split; assumption || reflexivity|].
    destruct (negb (first_packet_received_ s) || reset);
      [split; assumption || reflexivity|].
    destruct (negb (IsNewerTimestamp ts (last_timestamp_ s)) &&
              (num_reordered_packets_ s <? kMaxNumReorderedPackets));
      split; assumption || reflexivity.
  - cbn. split; [lia|reflexivity].
Qed.

Lemma run_packet_len_nonneg (cs : list Call) :
  forall s : DelayManager H,
  0 <= packet_len_ms_ s ->
  0 <= packet_len_ms_ (run IsNewerTimestamp cs s) /\
  max_packets_in_buffer_ (run IsNewerTimestamp cs s) = max_packets_in_buffer_ s.
Proof.
  unfold run. induction cs as [|c cs IH]; intros s Hlen; cbn [fold_left].
  - split; [assumption|reflexivity].
  - destruct (step_packet_len_nonneg c s Hlen) as [Hlen' Hm].
    destruct (IH _ Hlen') as [Hl Hmm]. split; [exact Hl|].
    rewrite Hmm. exact Hm.
Qed.

(** C5, as the code has it: wherever [3 * max_packets_in_buffer *
    packet_len_ms] fits [int], [MinimumDelayUpperBound()] is
    [min(max_bound, q75)] with [q75] that product divided by 4, truncated
    toward zero, and replaced by 10000 whenever it is not positive; with a
    non-negative buffer capacity and packet length (as on every manager
    reached from a construction with a non-negative capacity) that is the
    floor formula with [q75 == 0] replaced; and every accepted call of a
    bound setter leaves [effective_minimum_delay_ms_ =
    max(minimum_delay_ms_, clamp(base_minimum_delay_ms_, 0,
    MinimumDelayUpperBound()))]. *)
Theorem MinimumDelayUpperBound_and_effective_minimum (s : DelayManager H) :
  (in_int (3 * max_packets_in_buffer_ s * packet_len_ms_ s) ->
   MinimumDelayUpperBound s = truncating_MinimumDelayUpperBound s) /\
  (0 <= max_packets_in_buffer_ s ->
   0 <= packet_len_ms_ s ->
   truncating_MinimumDelayUpperBound s = spec_MinimumDelayUpperBound s) /\
  (forall cs m b q t h,
     s = run IsNewerTimestamp cs (DelayManager_new m b q t h) ->
     0 <= m ->
     0 <= max_packets_in_buffer_ s /\ 0 <= packet_len_ms_ s) /\
  (forall delay_ms s' set,
     In set [SetMinimumDelay; SetMaximumDelay; SetBaseMinimumDelay] ->
     set delay_ms s = (true, s') ->
     effective_minimum_delay_ms_ s' =
     Z.max (minimum_delay_ms_ s')
           (spec_clamp (base_minimum_delay_ms_ s') 0 (MinimumDelayUpperBound s'))).
Proof.
  split; [|split; [|split]].
  - intros Hfit.
    unfold MinimumDelayUpperBound, truncating_MinimumDelayUpperBound,
      kMaxBaseMinimumDelayMs.
    set (m := max_packets_in_buffer_ s) in *. set (p := packet_len_ms_ s) in *.
    replace (3 * m * p) with (m * p * 3) in * by ring.
    rewrite (int_mul_small m p) by (unfold in_int, INT_MIN, INT_MAX in *; lia).
    rewrite (int_mul_small (m * p) 3) by exact Hfit.
    rewrite int_div_small by (apply quot_in_int; [exact Hfit|lia]).
    reflexivity.
  - intros Hm Hp.
    unfold truncating_MinimumDelayUpperBound, spec_MinimumDelayUpperBound.
    set (m := max_packets_in_buffer_ s) in *. set (p := packet_len_ms_ s) in *.
    assert (Hmp : 0 <= 3 * m * p) by nia.
    rewrite Z.quot_div_nonneg by lia.
    pose proof (Z.div_pos (3 * m * p) 4 Hmp ltac:(lia)) as Hq.
    destruct (Z.ltb_spec 0 (3 * m * p / 4)); destruct (Z.eqb_spec (3 * m * p / 4) 0);
      try lia; reflexivity.
  - intros cs m b q t h -> Hm.
    destruct (run_packet_len_nonneg cs (DelayManager_new m b q t h))
      as [Hlen Hcap]; [cbn; lia|].
    rewrite Hcap. split; [exact Hm|exact Hlen].
  - intros delay_ms s' set Hin Hset.
    assert (exists s1, s' = UpdateEffectiveMinimumDelay s1) as [s1 ->].
    { cbn [In] in Hin. destruct Hin as [<-|[<-|[<-|[]]]].
      - unfold SetMinimumDelay in Hset.
        destruct (negb (IsValidMinimumDelay delay_ms s)); inversion Hset; eauto.
      - unfold SetMaximumDelay in Hset.
        destruct (negb (delay_ms =? 0) && _); inversion Hset; eauto.
      - unfold SetBaseMinimumDelay in Hset.
        destruct (negb (IsValidBaseMinimumDelay delay_ms)); inversion Hset; eauto. }
    rewrite UpdateEffectiveMinimumDelay_value. reflexivity.
Qed.

(** ** The history deque *)

Lemma history_limit_nonneg (sample_rate_hz : Z) : 0 <= history_limit sample_rate_hz.
Proof. unfold history_limit. apply to_uint32_range. Qed.

Lemma pop_front_while_old_pushed (ts limit : Z) (new : PacketDelay)
  (h : list PacketDelay) :
  0 <= limit -> timestamp new = ts ->
  exists dropped kept,
    h = dropped ++ kept /\
    pop_front_while_old ts limit (h ++ [new]) = kept ++ [new].
Proof.
  intros Hl Hts. induction h as [|d h IH]; cbn [app pop_front_while_old].
  - exists [], []. split; [reflexivity|].
    rewrite Hts, u32_sub_diag.
    destruct (Z.ltb_spec limit 0); [lia|reflexivity].
  - destruct (limit <? u32_sub ts (timestamp d)).
    + destruct IH as (dropped & kept & -> & E).
      exists (d :: dropped), kept. split; [reflexivity|assumption].
    + exists [], (d :: h). split; reflexivity.
Qed.

Lemma UpdateDelayHistory_pushed (iat ts sample_rate_hz : Z) (h : list PacketDelay) :
  exists dropped kept,
    h = dropped ++ kept /\
    UpdateDelayHistory iat ts sample_rate_hz h =
    kept ++ [{| iat_delay_ms := iat; timestamp := ts |}].
Proof.
  unfold UpdateDelayHistory.
  apply pop_front_while_old_pushed; [apply history_limit_nonneg|reflexivity].
Qed.

(** The eviction loop always stops on a non-empty deque. *)
Lemma UpdateDelayHistory_nonempty (iat ts sample_rate_hz : Z) (h : list PacketDelay) :
  UpdateDelayHistory iat ts sample_rate_hz h <> [].
Proof.
  destruct (UpdateDelayHistory_pushed iat ts sample_rate_hz h)
    as (dropped & kept & _ & ->).
  destruct kept; discriminate.
Qed.

(** ** Steady-state [Update] *)

Lemma Update_reordered_below_limit (tick_timer : TickTimer) (ts sample_rate_hz : Z)
  (s : DelayManager H) :
  0 < sample_rate_hz ->
  first_packet_received_ s = true ->
  IsNewerTimestamp ts (last_timestamp_ s) = false ->
  num_reordered_packets_ s < kMaxNumReorderedPackets ->
  exists histogram target,
    Update IsNewerTimestamp tick_timer ts sample_rate_hz false s =
    (Some (Z.max (iat_delay_of tick_timer ts sample_rate_hz s) 0),
     mkDelayManager true (max_packets_in_buffer_ s)
       histogram (histogram_quantile_ s) (base_minimum_delay_ms_ s)
       (effective_minimum_delay_ms_ s) (minimum_delay_ms_ s)
       (maximum_delay_ms_ s) (packet_len_ms_ s) target
       (last_timestamp_ s) (int_add (num_reordered_packets_ s) 1)
       (delay_history_ s) (packet_iat_stopwatch_ s)).
Proof.
  intros Hr Hf Hn Hc. unfold Update.
  destruct (Z.leb_spec sample_rate_hz 0); [lia|].
  rewrite Hf, Hn. cbn [negb orb andb].
  destruct (Z.ltb_spec (num_reordered_packets_ s) kMaxNumReorderedPackets); [|lia].
  eexists _, _. reflexivity.
Qed.

Lemma Update_reordered_at_limit (tick_timer : TickTimer) (ts sample_rate_hz : Z)
  (s : DelayManager H) :
  0 < sample_rate_hz ->
  first_packet_received_ s = true ->
  IsNewerTimestamp ts (last_timestamp_ s) = false ->
  kMaxNumReorderedPackets <= num_reordered_packets_ s ->
  exists histogram target,
    Update IsNewerTimestamp tick_timer ts sample_rate_hz false s =
    (Some (Z.max (iat_delay_of tick_timer ts sample_rate_hz s) 0),
     mkDelayManager true (max_packets_in_buffer_ s)
       histogram (histogram_quantile_ s) (base_minimum_delay_ms_ s)
       (effective_minimum_delay_ms_ s) (minimum_delay_ms_ s)
       (maximum_delay_ms_ s) (packet_len_ms_ s) target
       ts 0 [] (GetNewStopwatch tick_timer)).
Proof.
  intros Hr Hf Hn Hc. unfold Update.
  destruct (Z.leb_spec sample_rate_hz 0); [lia|].
  rewrite Hf, Hn. cbn [negb orb andb].
  destruct (Z.ltb_spec (num_reordered_packets_ s) kMaxNumReorderedPackets); [lia|].
  eexists _, _. reflexivity.
Qed.

Lemma Update_in_order (tick_timer : TickTimer) (ts sample_rate_hz : Z) (s : DelayManager H) :
  0 < sample_rate_hz ->
  first_packet_received_ s = true ->
  IsNewerTimestamp ts (last_timestamp_ s) = true ->
  let history :=
    UpdateDelayHistory (iat_delay_of tick_timer ts sample_rate_hz s) ts
      sample_rate_hz (delay_history_ s) in
  exists histogram target,
    Update IsNewerTimestamp tick_timer ts sample_rate_hz false s =
    (Some (CalculateRelativePacketArrivalDelay history),
     mkDelayManager true (max_packets_in_buffer_ s)
       histogram (histogram_quantile_ s) (base_minimum_delay_ms_ s)
       (effective_minimum_delay_ms_ s) (minimum_delay_ms_ s)
       (maximum_delay_ms_ s) (packet_len_ms_ s) target
       ts 0 history (GetNewStopwatch tick_timer)).
Proof.
  intros Hr Hf Hn history. unfold Update.
  destruct (Z.leb_spec sample_rate_hz 0); [lia|].
  rewrite Hf, Hn. cbn [negb orb andb].
  eexists _, _. reflexivity.
Qed.

(** C3: in the tracking state a packet takes the reordered path exactly
    when [IsNewerTimestamp] denies that its timestamp is newer than
    [last_timestamp_].  On that path no sample is appended (the history is
    kept as it is, or cleared), the returned delay is
    [max(iat_delay_ms, 0)], where [iat_delay_ms] is the stopwatch's elapsed
    time minus [1000 * (timestamp - last_timestamp_) / sample_rate_hz] on
    the signed 32-bit timestamp difference, and while the reorder counter
    is below 5 the last timestamp and the stopwatch stay as they were.  On
    the other path the sample is appended at the back of the history. *)
Theorem Update_reorder_classification (tick_timer : TickTimer)
  (ts sample_rate_hz : Z) (s : DelayManager H) :
  0 < sample_rate_hz ->
  first_packet_received_ s = true ->
  let r := Update IsNewerTimestamp tick_timer ts sample_rate_hz false s in
  let delta := to_int32 (u32_sub ts (last_timestamp_ s)) in
  let iat_ms := to_int32 (tick_timer - started_at (packet_iat_stopwatch_ s)) in
  let expected_iat_ms := int_div (int_mul 1000 delta) sample_rate_hz in
  let iat := int_sub iat_ms expected_iat_ms in
  (in_int (1000 * delta) ->
   in_int (iat_ms - Z.quot (1000 * delta) sample_rate_hz) ->
   iat = iat_ms - Z.quot (1000 * delta) sample_rate_hz) /\
  (IsNewerTimestamp ts (last_timestamp_ s) = false ->
   fst r = Some (Z.max iat 0) /\
   (delay_history_ (snd r) = delay_history_ s \/ delay_history_ (snd r) = []) /\
   (num_reordered_packets_ s < 5 ->
    delay_history_ (snd r) = delay_history_ s /\
    last_timestamp_ (snd r) = last_timestamp_ s /\
    packet_iat_stopwatch_ (snd r) = packet_iat_stopwatch_ s /\
    num_reordered_packets_ (snd r) = int_add (num_reordered_packets_ s) 1)) /\
  (IsNewerTimestamp ts (last_timestamp_ s) = true ->
   exists dropped kept,
     delay_history_ s = dropped ++ kept /\
     delay_history_ (snd r) =
       kept ++ [{| iat_delay_ms := iat; timestamp := ts |}]).
Proof.
  intros Hr Hf r delta iat_ms expected_iat_ms iat.
  assert (Eiat : iat = iat_delay_of tick_timer ts sample_rate_hz s)
    by reflexivity.
  split; [|split; intros Hn].
  - intros Hmul Hsub. subst iat expected_iat_ms.
    rewrite int_mul_small by exact Hmul.
    rewrite int_div_small by (apply quot_in_int; [exact Hmul|exact Hr]).
    unfold int_sub. apply to_int32_small. exact Hsub.
  - rewrite Eiat.
    destruct (Z.lt_ge_cases (num_reordered_packets_ s) kMaxNumReorderedPackets)
      as [Hc|Hc].
    + destruct (Update_reordered_below_limit tick_timer ts sample_rate_hz s
                  Hr Hf Hn Hc) as (hg & tg & E).
      subst r. rewrite E. cbn [fst snd delay_history_ last_timestamp_
        packet_iat_stopwatch_ num_reordered_packets_].
      repeat split; auto.
    + destruct (Update_reordered_at_limit tick_timer ts sample_rate_hz s
                  Hr Hf Hn Hc) as (hg & tg & E).
      subst r. rewrite E. cbn [fst snd delay_history_].
      split; [reflexivity|]. split; [right; reflexivity|].
      unfold kMaxNumReorderedPackets in Hc. lia.
  - rewrite Eiat.
    destruct (Update_in_order tick_timer ts sample_rate_hz s Hr Hf Hn)
      as (hg & tg & E).
    subst r. rewrite E. cbn [snd delay_history_].
    apply UpdateDelayHistory_pushed.
Qed.

(** ** Reorder tolerance *)

Lemma feed_reordered (ps : list Packet) :
  forall s : DelayManager H,
  first_packet_received_ s = true ->
  0 <= num_reordered_packets_ s ->
  num_reordered_packets_ s + Z.of_nat (length ps) <= kMaxNumReorderedPackets ->
  Forall (reordered_wrt IsNewerTimestamp (last_timestamp_ s)) ps ->
  first_packet_received_ (feed IsNewerTimestamp ps s) = true /\
  delay_history_ (feed IsNewerTimestamp ps s) = delay_history_ s /\
  num_reordered_packets_ (feed IsNewerTimestamp ps s) =
    num_reordered_packets_ s + Z.of_nat (length ps) /\
  last_timestamp_ (feed IsNewerTimestamp ps s) = last_timestamp_ s /\
  packet_iat_stopwatch_ (feed IsNewerTimestamp ps s) = packet_iat_stopwatch_ s.
Proof.
  induction ps as [|p ps IH]; intros s Hf Hc0 Hlen Hall.
  - cbn. repeat split; auto. lia.
  - inversion Hall as [|? ? [Hr Hn] Hall']; subst.
    cbn [length] in Hlen. rewrite Nat2Z.inj_succ in Hlen.
    assert (Hlt : num_reordered_packets_ s < kMaxNumReorderedPackets) by lia.
    destruct (Update_reordered_below_limit (arrival p) (rtp_timestamp p)
                (rate_hz p) s Hr Hf Hn Hlt) as (hg & tg & E).
    unfold feed in *. cbn [fold_left]. rewrite E. cbn [snd].
    match goal with
    | |- context [fold_left _ ps ?s1] => specialize (IH s1)
    end.
    cbn [first_packet_received_ delay_history_ num_reordered_packets_
         last_timestamp_ packet_iat_stopwatch_] in IH.
    assert (Hadd : int_add (num_reordered_packets_ s) 1 = num_reordered_packets_ s + 1).
    { apply int_add_small. unfold in_int, INT_MIN, INT_MAX, kMaxNumReorderedPackets in *.
      lia. }
    rewrite Hadd in IH. rewrite Hadd.
    assert (Hc1 : 0 <= num_reordered_packets_ s + 1) by lia.
    assert (Hlen1 : num_reordered_packets_ s + 1 + Z.of_nat (length ps)
                    <= kMaxNumReorderedPackets) by lia.
    destruct (IH eq_refl Hc1 Hlen1 Hall') as (I1 & I2 & I3 & I4 & I5).
    cbn [length]. rewrite Nat2Z.inj_succ.
    split; [exact I1|]. split; [exact I2|].
    split; [rewrite I3; lia|]. split; assumption.
Qed.

Lemma Update_reordered_at_limit_ignores_history (tick_timer : TickTimer)
  (ts sample_rate_hz : Z) (s : DelayManager H) :
  0 < sample_rate_hz ->
  first_packet_received_ s = true ->
  IsNewerTimestamp ts (last_timestamp_ s) = false ->
  kMaxNumReorderedPackets <= num_reordered_packets_ s ->
  Update IsNewerTimestamp tick_timer ts sample_rate_hz false (clear_history s) =
  Update IsNewerTimestamp tick_timer ts sample_rate_hz false s.
Proof.
  intros Hr Hf Hn Hc. destruct s as [f m hg q b e mn mx pl tg lt n hs sw].
  cbn [first_packet_received_ last_timestamp_ num_reordered_packets_] in Hf, Hn, Hc.
  subst f.
  unfold Update, clear_history, iat_delay_of, new_target_level.
  cbn [first_packet_received_ max_packets_in_buffer_ histogram_
       histogram_quantile_ base_minimum_delay_ms_ effective_minimum_delay_ms_
       minimum_delay_ms_ maximum_delay_ms_ packet_len_ms_ target_level_ms_
       last_timestamp_ num_reordered_packets_ delay_history_
       packet_iat_stopwatch_].
  destruct (Z.leb_spec sample_rate_hz 0); [lia|].
  rewrite Hn. cbn [negb andb orb].
  destruct (Z.ltb_spec n kMaxNumReorderedPackets); [lia|].
  reflexivity.
Qed.

(** C4: from the tracking state with a zero reorder counter, up to 5
    consecutive reordered packets keep the history, the last timestamp and
    the stopwatch, and count up to at most 5; a 6th consecutive reordered
    packet clears the history, zeroes the counter, and advances the last
    timestamp and the stopwatch to that packet; the call behaves as if the
    history had been cleared before it. *)
Theorem reorder_tolerance (s : DelayManager H) (ps : list Packet) (p6 : Packet) :
  first_packet_received_ s = true ->
  num_reordered_packets_ s = 0 ->
  (length ps <= 5)%nat ->
  Forall (reordered_wrt IsNewerTimestamp (last_timestamp_ s)) ps ->
  let s5 := feed IsNewerTimestamp ps s in
  delay_history_ s5 = delay_history_ s /\
  num_reordered_packets_ s5 = Z.of_nat (length ps) /\
  num_reordered_packets_ s5 <= 5 /\
  last_timestamp_ s5 = last_timestamp_ s /\
  packet_iat_stopwatch_ s5 = packet_iat_stopwatch_ s /\
  (length ps = 5%nat ->
   reordered_wrt IsNewerTimestamp (last_timestamp_ s) p6 ->
   let s6 := feed IsNewerTimestamp (ps ++ [p6]) s in
   delay_history_ s6 = [] /\
   num_reordered_packets_ s6 = 0 /\
   last_timestamp_ s6 = rtp_timestamp p6 /\
   packet_iat_stopwatch_ s6 = GetNewStopwatch (arrival p6) /\
   Update IsNewerTimestamp (arrival p6) (rtp_timestamp p6) (rate_hz p6) false
     (clear_history s5) =
   Update IsNewerTimestamp (arrival p6) (rtp_timestamp p6) (rate_hz p6) false s5).
Proof.
  intros Hf Hz Hlen Hall s5.
  assert (Hc0 : 0 <= num_reordered_packets_ s) by lia.
  assert (Hfit : num_reordered_packets_ s + Z.of_nat (length ps)
                 <= kMaxNumReorderedPackets)
    by (unfold kMaxNumReorderedPackets; lia).
  destruct (feed_reordered ps s Hf Hc0 Hfit Hall) as (F1 & F2 & F3 & F4 & F5).
  fold s5 in F1, F2, F3, F4, F5. rewrite Hz in F3. cbn in F3.
  split; [exact F2|]. split; [exact F3|]. split; [lia|].
  split; [exact F4|]. split; [exact F5|].
  intros H5 [Hr Hn] s6.
  assert (E6 : s6 = snd (Update IsNewerTimestamp (arrival p6) (rtp_timestamp p6)
                           (rate_hz p6) false s5)).
  { subst s6 s5. unfold feed. rewrite fold_left_app. reflexivity. }
  rewrite <- F4 in Hn.
  assert (Hat : kMaxNumReorderedPackets <= num_reordered_packets_ s5)
    by (unfold kMaxNumReorderedPackets; lia).
  destruct (Update_reordered_at_limit (arrival p6) (rtp_timestamp p6) (rate_hz p6)
              s5 Hr F1 Hn Hat) as (hg & tg & E).
  rewrite E in E6. rewrite E6. cbn [snd delay_history_ num_reordered_packets_
    last_timestamp_ packet_iat_stopwatch_].
  repeat split; try reflexivity.
  apply Update_reordered_at_limit_ignores_history; assumption.
Qed.

(** ** The relative arrival delay *)

Lemma relative_delay_loop_nonneg (h : list PacketDelay) :
  forall acc, 0 <= acc ->
  0 <= fold_left
         (fun relative_delay delay =>
            Z.max (int_add relative_delay (iat_delay_ms delay)) 0) h acc.
Proof.
  induction h as [|d h IH]; intros acc Hacc; cbn [fold_left].
  - assumption.
  - apply IH. lia.
Qed.

Lemma CalculateRelativePacketArrivalDelay_nonneg (h : list PacketDelay) :
  0 <= CalculateRelativePacketArrivalDelay h.
Proof. apply relative_delay_loop_nonneg. lia. Qed.

Lemma positive_part_sum_nonneg (ds : list Z) : 0 <= positive_part_sum ds.
Proof.
  unfold positive_part_sum.
  induction ds as [|d ds IH]; cbn [fold_right]; lia.
Qed.

Lemma relative_delay_loop_exact (h : list PacketDelay) :
  forall acc,
  0 <= acc ->
  Forall in_int (map iat_delay_ms h) ->
  acc + positive_part_sum (map iat_delay_ms h) <= INT_MAX ->
  fold_left
    (fun relative_delay delay =>
       Z.max (int_add relative_delay (iat_delay_ms delay)) 0) h acc =
  fold_left (fun a d => Z.max 0 (a + d)) (map iat_delay_ms h) acc.
Proof.
  induction h as [|d h IH]; intros acc Hacc Hin Hsum; cbn [fold_left map].
  - reflexivity.
  - unfold positive_part_sum in Hsum. cbn [fold_right map] in Hsum.
    fold (positive_part_sum (map iat_delay_ms h)) in Hsum.
    inversion Hin as [|? ? Hd Hin']; subst.
    pose proof (positive_part_sum_nonneg (map iat_delay_ms h)) as Hp.
    rewrite int_add_small
      by (unfold in_int, INT_MIN, INT_MAX in *; lia).
    rewrite (Z.max_comm _ 0).
    apply IH; [lia|assumption|lia].
Qed.

Lemma running_sum_clamped_fold (ds : list Z) :
  running_sum_clamped ds = fold_left (fun a d => Z.max 0 (a + d)) ds 0.
Proof. unfold running_sum_clamped. apply fold_left_rev_right. Qed.

Lemma CalculateRelativePacketArrivalDelay_exact (h : list PacketDelay) :
  sum_fits_int (map iat_delay_ms h) ->
  CalculateRelativePacketArrivalDelay h =
  running_sum_clamped (map iat_delay_ms h).
Proof.
  intros [Hin Hsum]. rewrite running_sum_clamped_fold.
  apply relative_delay_loop_exact; [lia|assumption|lia].
Qed.

(** C2: for an in-order packet in the tracking state the history is not
    empty after the append, the returned relative delay is never negative,
    and it is the running sum of [iat_delay_ms] over the history in arrival
    order, clamped at zero after each addition (as long as that sum stays
    within [int]). *)
Theorem in_order_relative_delay (tick_timer : TickTimer) (ts sample_rate_hz : Z)
  (s : DelayManager H) :
  0 < sample_rate_hz ->
  first_packet_received_ s = true ->
  IsNewerTimestamp ts (last_timestamp_ s) = true ->
  let r := Update IsNewerTimestamp tick_timer ts sample_rate_hz false s in
  let samples := map iat_delay_ms (delay_history_ (snd r)) in
  delay_history_ (snd r) <> [] /\
  exists relative_delay,
    fst r = Some relative_delay /\
    0 <= relative_delay /\
    (sum_fits_int samples -> relative_delay = running_sum_clamped samples).
Proof.
  intros Hr Hf Hn r samples.
  destruct (Update_in_order tick_timer ts sample_rate_hz s Hr Hf Hn)
    as (hg & tg & E).
  subst samples r. rewrite E. cbn [fst snd delay_history_].
  split; [apply UpdateDelayHistory_nonempty|].
  eexists. split; [reflexivity|].
  split; [apply CalculateRelativePacketArrivalDelay_nonneg|].
  apply CalculateRelativePacketArrivalDelay_exact.
Qed.

(** ** The history horizon *)

Lemma u32_sub_nonneg (a b : Z) : 0 <= u32_sub a b.
Proof. unfold u32_sub. apply to_uint32_range. Qed.

Lemma u32_sub_chain (a b c : Z) :
  u32_sub a b + u32_sub b c < UINT32_MOD ->
  u32_sub a c = u32_sub a b + u32_sub b c.
Proof.
  unfold u32_sub, to_uint32, UINT32_MOD. intros Hlt.
  replace (a - c) with ((a - b) + (b - c)) by ring.
  rewrite Z.add_mod by lia.
  apply Z.mod_small.
  pose proof (Z.mod_pos_bound (a - b) 4294967296 eq_refl).
  pose proof (Z.mod_pos_bound (b - c) 4294967296 eq_refl). lia.
Qed.

Lemma history_limit_in_range (sample_rate_hz : Z) :
  0 < sample_rate_hz ->
  kMaxHistoryMs * sample_rate_hz <= INT_MAX ->
  history_limit sample_rate_hz = spec_horizon sample_rate_hz /\
  0 <= spec_horizon sample_rate_hz < 2147483648.
Proof.
  unfold history_limit, spec_horizon, kMaxHistoryMs, INT_MAX. intros Hr Hfit.
  rewrite int_mul_small by (unfold in_int, INT_MIN, INT_MAX; lia).
  rewrite int_div_nonneg by (unfold INT_MAX; lia).
  pose proof (Z.div_pos (2000 * sample_rate_hz) 1000 ltac:(lia) ltac:(lia)).
  pose proof (Z.div_le_upper_bound (2000 * sample_rate_hz) 1000 2147483647
                ltac:(lia) ltac:(lia)).
  rewrite to_uint32_small by (unfold UINT32_MOD; lia). lia.
Qed.

Lemma pop_front_while_old_within (ts limit : Z) (h : list PacketDelay) :
  ages_descend ts h ->
  within_horizon ts limit (pop_front_while_old ts limit h) /\
  ages_descend ts (pop_front_while_old ts limit h).
Proof.
  induction h as [|d rest IH]; cbn [pop_front_while_old ages_descend].
  - intros _. split; [constructor|exact I].
  - intros [Hrest Hdesc].
    destruct (Z.ltb_spec limit (u32_sub ts (timestamp d))) as [Hold|Hin].
    + apply IH. assumption.
    + split.
      * constructor; [assumption|].
        eapply Forall_impl; [|exact Hrest]. cbn. intros e He. lia.
      * cbn [ages_descend]. split; assumption.
Qed.

Lemma ages_descend_push (last ts delta : Z) (new : PacketDelay)
  (h : list PacketDelay) :
  timestamp new = ts ->
  Forall (fun e => u32_sub ts (timestamp e) = delta + u32_sub last (timestamp e)) h ->
  ages_descend last h ->
  ages_descend ts (h ++ [new]).
Proof.
  intros Hnew. induction h as [|d rest IH]; cbn [app ages_descend].
  - intros _ _. split; [constructor|exact I].
  - intros Hshift [Hrest Hdesc].
    inversion Hshift as [|? ? Hd Hshift']; subst.
    split; [|apply IH; assumption].
    apply Forall_app. split.
    + rewrite Forall_forall in *. intros e He.
      rewrite (Hshift' e He), Hd. specialize (Hrest e He). cbn in Hrest. lia.
    + constructor; [|constructor].
      rewrite u32_sub_diag. apply u32_sub_nonneg.
Qed.

Lemma newest_timestamp_pushed (kept : list PacketDelay) (new : PacketDelay) :
  newest_timestamp (kept ++ [new]) = Some (timestamp new).
Proof. unfold newest_timestamp. rewrite rev_app_distr. reflexivity. Qed.

Lemma setters_frame_history (c : Call) (s : DelayManager H) :
  match c with CallUpdate _ _ _ _ | CallReset _ => False | _ => True end ->
  delay_history_ (step IsNewerTimestamp c s) = delay_history_ s /\
  last_timestamp_ (step IsNewerTimestamp c s) = last_timestamp_ s.
Proof.
  destruct c as [d|d|d|d| |]; cbn [step]; intros Hc; try contradiction.
  - unfold SetMinimumDelay.
    destruct (negb (IsValidMinimumDelay d s)); split; reflexivity.
  - unfold SetMaximumDelay.
    destruct (negb (d =? 0) && _); split; reflexivity.
  - unfold SetBaseMinimumDelay.
    destruct (negb (IsValidBaseMinimumDelay d)); split; reflexivity.
  - unfold SetPacketAudioLength.
    destruct (d <=? 0); split; reflexivity.
Qed.

Lemma history_ok_frame (s s' : DelayManager H) (limit : Z) :
  delay_history_ s' = delay_history_ s ->
  last_timestamp_ s' = last_timestamp_ s ->
  history_ok s limit -> history_ok s' limit.
Proof. unfold history_ok. intros -> ->. exact (fun x => x). Qed.

Lemma history_ok_in_order (tick_timer : TickTimer) (ts r limit : Z) (s : DelayManager H) :
  0 < u32_sub ts (last_timestamp_ s) <= 2147483648 ->
  0 < r -> kMaxHistoryMs * r <= INT_MAX ->
  first_packet_received_ s = true ->
  IsNewerTimestamp ts (last_timestamp_ s) = true ->
  history_ok s limit ->
  history_ok (snd (Update IsNewerTimestamp tick_timer ts r false s)) (spec_horizon r).
Proof.
  intros Hdelta Hr Hfit Hf Hn [Hlim Hok].
  destruct (Update_in_order tick_timer ts r s Hr Hf Hn) as (hg & tg & E).
  rewrite E. clear E. cbn [snd].
  destruct (history_limit_in_range r Hr Hfit) as [Elim Hrange].
  unfold history_ok. cbn [delay_history_ last_timestamp_].
  split; [exact Hrange|]. right.
  set (iat := iat_delay_of tick_timer ts r s).
  set (new := {| iat_delay_ms := iat; timestamp := ts |}).
  assert (Hdesc : ages_descend ts (delay_history_ s ++ [new])).
  { destruct Hok as [Hnil|(Hnew & Hdesc & Hwithin)].
    - rewrite Hnil. cbn. split; [constructor|exact I].
    - apply (ages_descend_push (last_timestamp_ s) ts
               (u32_sub ts (last_timestamp_ s))); [reflexivity| |assumption].
      unfold within_horizon in Hwithin. rewrite Forall_forall in *.
      intros e He. apply u32_sub_chain. specialize (Hwithin e He). cbn in Hwithin.
      unfold UINT32_MOD. lia. }
  destruct (UpdateDelayHistory_pushed iat ts r (delay_history_ s))
    as (dropped & kept & _ & Ekept).
  split; [rewrite Ekept; apply newest_timestamp_pushed|].
  unfold UpdateDelayHistory. fold new. rewrite Elim.
  destruct (pop_front_while_old_within ts (spec_horizon r)
              (delay_history_ s ++ [new]) Hdesc) as [Hw Hd].
  split; assumption.
Qed.

Lemma history_ok_step (c : Call) (s : DelayManager H) (limit : Z) :
  (forall x y, IsNewerTimestamp x y = true -> 0 < u32_sub x y <= 2147483648) ->
  rate_in_range c ->
  history_ok s limit ->
  history_ok (step IsNewerTimestamp c s) (horizon_step IsNewerTimestamp c s limit).
Proof.
  intros Hnewer Hrate Hok.
  destruct c as [d|d|d|d|t ts r reset|t];
    try (cbn [horizon_step];
         apply (history_ok_frame s); [apply setters_frame_history; exact I ..|exact Hok]).
  - cbn [step horizon_step rate_in_range] in *.
    destruct (Z.ltb_spec 0 r) as [Hr|Hr]; cbn [andb].
    2:{ rewrite Update_nonpositive_rate by lia. exact Hok. }
    destruct (first_packet_received_ s) eqn:Hf; cbn [andb].
    2:{ rewrite Update_restart_any by auto. cbn [snd].
        split; [apply Hok|left; reflexivity]. }
    destruct reset; cbn [negb andb].
    { rewrite Update_restart_any by auto. cbn [snd].
      split; [apply Hok|left; reflexivity]. }
    destruct (IsNewerTimestamp ts (last_timestamp_ s)) eqn:Hn.
    + apply (history_ok_in_order t ts r limit s); auto.
    + destruct (Z.lt_ge_cases (num_reordered_packets_ s) kMaxNumReorderedPackets)
        as [Hc|Hc].
      * destruct (Update_reordered_below_limit t ts r s Hr Hf Hn Hc)
          as (hg & tg & E).
        rewrite E. cbn [snd]. apply (history_ok_frame s); [reflexivity ..|exact Hok].
      * destruct (Update_reordered_at_limit t ts r s Hr Hf Hn Hc)
          as (hg & tg & E).
        rewrite E. cbn [snd]. split; [apply Hok|left; reflexivity].
  - cbn [step horizon_step]. split; [apply Hok|left; reflexivity].
Qed.

Lemma run_horizon_history_ok (cs : list Call) :
  forall (s : DelayManager H) (limit : Z),
  (forall x y, IsNewerTimestamp x y = true -> 0 < u32_sub x y <= 2147483648) ->
  Forall rate_in_range cs ->
  history_ok s limit ->
  history_ok (fst (run_horizon IsNewerTimestamp cs s limit))
             (snd (run_horizon IsNewerTimestamp cs s limit)).
Proof.
  induction cs as [|c cs IH]; intros s limit Hnewer Hrates Hok; cbn [run_horizon].
  - exact Hok.
  - inversion Hrates; subst.
    apply IH; [assumption|assumption|].
    apply history_ok_step; assumption.
Qed.

Lemma run_horizon_state (cs : list Call) :
  forall (s : DelayManager H) (limit : Z),
  fst (run_horizon IsNewerTimestamp cs s limit) = run IsNewerTimestamp cs s.
Proof.
  induction cs as [|c cs IH]; intros s limit; cbn [run_horizon].
  - reflexivity.
  - rewrite IH. reflexivity.
Qed.

(** C6: after any sequence of calls on a constructed manager (sample rates
    small enough for [2000 * sample_rate_hz] to fit [int]), every entry of
    the history is at most [2000 * sample_rate_hz / 1000] timestamp units
    older, under unsigned 32-bit subtraction, than the most recently
    appended timestamp, where [sample_rate_hz] is the rate of the call that
    appended it. *)
Theorem history_within_horizon (cs : list Call) (m b q : Z) (t : TickTimer)
  (h : H) :
  (forall x y, IsNewerTimestamp x y = true -> 0 < u32_sub x y <= 2147483648) ->
  Forall rate_in_range cs ->
  let r := run_horizon IsNewerTimestamp cs (DelayManager_new m b q t h) 0 in
  fst r = run IsNewerTimestamp cs (DelayManager_new m b q t h) /\
  forall newest,
    newest_timestamp (delay_history_ (fst r)) = Some newest ->
    within_horizon newest (snd r) (delay_history_ (fst r)).
Proof.
  intros Hnewer Hrates r. split; [apply run_horizon_state|].
  intros newest Hnewest.
  assert (Hinit : history_ok (DelayManager_new m b q t h) 0).
  { split; [lia|left; reflexivity]. }
  destruct (run_horizon_history_ok cs _ 0 Hnewer Hrates Hinit) as [_ Hok].
  fold r in Hok. destruct Hok as [Hnil|(Hnew & _ & Hwithin)].
  - rewrite Hnil in Hnewest. discriminate.
  - rewrite Hnewest in Hnew. injection Hnew as ->. exact Hwithin.
Qed.

(** ** The bounds on the target level *)

Lemma config_ok_UpdateEffectiveMinimumDelay (s : DelayManager H) :
  0 <= minimum_delay_ms_ s ->
  (0 < maximum_delay_ms_ s -> minimum_delay_ms_ s <= maximum_delay_ms_ s) ->
  config_ok (UpdateEffectiveMinimumDelay s).
Proof.
  intros Hmin Hmax. unfold config_ok.
  rewrite UpdateEffectiveMinimumDelay_value.
  cbn [UpdateEffectiveMinimumDelay set_effective_minimum_delay_ms
       minimum_delay_ms_ maximum_delay_ms_].
  split; [assumption|]. intros Hpos. split; [auto|].
  pose proof (MinimumDelayUpperBound_le_maximum s Hpos).
  pose proof (MinimumDelayUpperBound_pos s).
  specialize (Hmax Hpos). unfold spec_clamp. lia.
Qed.

Lemma config_ok_frame (s s' : DelayManager H) :
  minimum_delay_ms_ s' = minimum_delay_ms_ s ->
  maximum_delay_ms_ s' = maximum_delay_ms_ s ->
  effective_minimum_delay_ms_ s' = effective_minimum_delay_ms_ s ->
  config_ok s -> config_ok s'.
Proof. unfold config_ok. intros -> -> ->. exact (fun x => x). Qed.

Lemma Update_frame_config (tick_timer : TickTimer) (ts sample_rate_hz : Z)
  (reset : bool) (s : DelayManager H) :
  let s' := snd (Update IsNewerTimestamp tick_timer ts sample_rate_hz reset s) in
  minimum_delay_ms_ s' = minimum_delay_ms_ s /\
  maximum_delay_ms_ s' = maximum_delay_ms_ s /\
  effective_minimum_delay_ms_ s' = effective_minimum_delay_ms_ s /\
  packet_len_ms_ s' = packet_len_ms_ s /\
  max_packets_in_buffer_ s' = max_packets_in_buffer_ s.
Proof.
  unfold Update.
  destruct (sample_rate_hz <=? 0); [cbn; auto 6|].
  destruct (negb (first_packet_received_ s) || reset); [cbn; auto 6|].
  destruct (negb (IsNewerTimestamp ts (last_timestamp_ s)) &&
            (num_reordered_packets_ s <? kMaxNumReorderedPackets));
    cbn; auto 6.
Qed.

Lemma config_ok_step (c : Call) (s : DelayManager H) :
  config_ok s -> config_ok (step IsNewerTimestamp c s).
Proof.
  intros Hok. pose proof Hok as [Hmin Hmax].
  destruct c as [d|d|d|d|t ts r reset|t]; cbn [step].
  - unfold SetMinimumDelay, IsValidMinimumDelay.
    destruct (Z.leb_spec 0 d); cbn [andb negb snd]; [|exact Hok].
    destruct (Z.leb_spec d (MinimumDelayUpperBound s)); cbn [negb snd]; [|exact Hok].
    apply config_ok_UpdateEffectiveMinimumDelay; cbn; [assumption|].
    intros Hpos. pose proof (MinimumDelayUpperBound_le_maximum s Hpos). lia.
  - destruct (SetMaximumDelay_cases d s) as [(_ & _ & E)|(Hd & E)];
      rewrite E; cbn [snd]; [exact Hok|].
    apply config_ok_UpdateEffectiveMinimumDelay; cbn; [assumption|].
    intros Hpos. destruct Hd as [->|[Hge _]]; lia.
  - unfold SetBaseMinimumDelay.
    destruct (negb (IsValidBaseMinimumDelay d)); cbn [snd]; [exact Hok|].
    apply config_ok_UpdateEffectiveMinimumDelay; cbn; [assumption|].
    intros Hpos. apply Hmax. assumption.
  - unfold SetPacketAudioLength. destruct (d <=? 0); exact Hok.
  - destruct (Update_frame_config t ts r reset s) as (E1 & E2 & E3 & _).
    apply (config_ok_frame s); assumption.
  - apply (config_ok_frame s); [reflexivity ..|exact Hok].
Qed.

Lemma config_ok_run (cs : list Call) :
  forall s : DelayManager H, config_ok s -> config_ok (run IsNewerTimestamp cs s).
Proof.
  unfold run. induction cs as [|c cs IH]; intros s Hok; cbn [fold_left].
  - exact Hok.
  - apply IH. apply config_ok_step. exact Hok.
Qed.

Lemma config_ok_constructed (m b q : Z) (t : TickTimer) (h : H) :
  config_ok (DelayManager_new m b q t h).
Proof. unfold config_ok. cbn. split; lia. Qed.

Lemma Update_tracking_target (tick_timer : TickTimer) (ts sample_rate_hz : Z)
  (s : DelayManager H) :
  0 < sample_rate_hz ->
  first_packet_received_ s = true ->
  exists histogram,
    target_level_ms_
      (snd (Update IsNewerTimestamp tick_timer ts sample_rate_hz false s)) =
    new_target_level histogram s.
Proof.
  intros Hr Hf. unfold Update.
  destruct (Z.leb_spec sample_rate_hz 0); [lia|].
  rewrite Hf. cbn [negb orb].
  destruct (negb (IsNewerTimestamp ts (last_timestamp_ s)) &&
            (num_reordered_packets_ s <? kMaxNumReorderedPackets));
    cbn [snd target_level_ms_]; eexists; reflexivity.
Qed.

Lemma new_target_level_bounds (histogram : H) (s : DelayManager H) :
  config_ok s ->
  (packet_len_ms_ s = 0 \/ effective_minimum_delay_ms_ s <= buffer_ceiling s ->
   effective_minimum_delay_ms_ s <= new_target_level histogram s) /\
  (0 < maximum_delay_ms_ s ->
   packet_len_ms_ s = 0 \/ packet_len_ms_ s <= maximum_delay_ms_ s ->
   new_target_level histogram s <= maximum_delay_ms_ s).
Proof.
  intros [Hmin Hmax]. unfold new_target_level. fold (buffer_ceiling s).
  set (t0 := int_mul (int_add 1 (Quantile (histogram_quantile_ s) histogram))
                     kBucketSizeMs).
  destruct (Z.ltb_spec 0 (maximum_delay_ms_ s)) as [Hpos|Hnone];
  destruct (Z.ltb_spec 0 (packet_len_ms_ s)) as [Hlen|Hlen];
    split; intros; try specialize (Hmax Hpos); lia.
Qed.

(** C1, as the code has it: on a manager reached from construction by any
    sequence of calls, an [Update] that recomputes the target (valid rate,
    a packet already received, no reset) leaves
    [effective_minimum_delay_ms_ <= target_level_ms_] when the packet
    length is unknown or the effective minimum does not exceed the
    75%-of-buffer ceiling, and, when a maximum delay is set, leaves
    [target_level_ms_ <= maximum_delay_ms_] when the packet length is
    unknown or does not exceed the maximum. *)
Theorem bounds_after_tracking_Update (cs : list Call) (m b q : Z)
  (t : TickTimer) (h : H) (tick_timer : TickTimer) (ts sample_rate_hz : Z) :
  let s := run IsNewerTimestamp cs (DelayManager_new m b q t h) in
  let s' := snd (Update IsNewerTimestamp tick_timer ts sample_rate_hz false s) in
  0 < sample_rate_hz ->
  first_packet_received_ s = true ->
  (packet_len_ms_ s = 0 \/ effective_minimum_delay_ms_ s <= buffer_ceiling s ->
   effective_minimum_delay_ms_ s' <= target_level_ms_ s') /\
  (0 < maximum_delay_ms_ s' ->
   packet_len_ms_ s = 0 \/ packet_len_ms_ s <= maximum_delay_ms_ s ->
   target_level_ms_ s' <= maximum_delay_ms_ s').
Proof.
  intros s s' Hr Hf.
  assert (Hok : config_ok s)
    by (apply config_ok_run, config_ok_constructed).
  destruct (Update_frame_config tick_timer ts sample_rate_hz false s)
    as (_ & Emax & Eeff & _).
  destruct (Update_tracking_target tick_timer ts sample_rate_hz s Hr Hf)
    as (hg & Et).
  fold s' in Emax, Eeff, Et. rewrite Emax, Eeff, Et.
  apply new_target_level_bounds. exact Hok.
Qed.

End Properties.

(** * The manager on concrete inputs *)

Lemma newer_by_signed_delta_bounds (x y : Z) :
  newer_by_signed_delta x y = true -> 0 < u32_sub x y <= 2147483648.
Proof.
  unfold newer_by_signed_delta, to_int32, UINT32_MOD.
  pose proof (to_uint32_range (x - y)) as Hu. unfold UINT32_MOD in Hu.
  fold (u32_sub x y) in Hu. set (u := u32_sub x y) in *.
  intros Hpos. apply Z.ltb_lt in Hpos.
  destruct (Z_lt_ge_dec u 2147483648) as [Hlow|Hhigh].
  - rewrite Z.mod_small in Hpos by lia. lia.
  - replace (u + 2147483648) with (u - 2147483648 + 1 * 4294967296) in Hpos by ring.
    rewrite Z.mod_add in Hpos by lia.
    rewrite Z.mod_small in Hpos by lia. lia.
Qed.

Lemma Update_invalid_rate_is_noop_witness :
  0 <= 0 /\
  Update newer_by_signed_delta 5 160 0 true tracking_manager =
  (None, tracking_manager).
Proof.
  split; [lia|].
  destruct (Update_invalid_rate_is_noop newer_by_signed_delta 5 160 0 true
              tracking_manager) as [E _]; [lia|exact E].
Defined.

Lemma first_valid_Update_restarts_witness :
  restarts newer_by_signed_delta fresh_manager false /\ 0 < 8000 /\
  fst (Update newer_by_signed_delta 7 160 8000 false fresh_manager) = None /\
  last_timestamp_
    (snd (Update newer_by_signed_delta 7 160 8000 false fresh_manager)) = 160 /\
  target_level_ms_
    (snd (Update newer_by_signed_delta 7 160 8000 false fresh_manager)) = 80.
Proof.
  assert (Hs : restarts newer_by_signed_delta fresh_manager false)
    by apply restarts_constructed.
  assert (Hr : 0 < 8000) by lia.
  split; [exact Hs|]. split; [exact Hr|].
  rewrite (first_valid_Update_restarts newer_by_signed_delta 7 160 8000 false
             fresh_manager Hs Hr).
  repeat split; reflexivity.
Defined.

Lemma SetMaximumDelay_contract_witness :
  50 <> 0 /\
  (minimum_delay_ms_ scenario_manager <= 50 /\
   packet_len_ms_ scenario_manager <= 50) /\
  fst (SetMaximumDelay 50 scenario_manager) = true /\
  maximum_delay_ms_ (snd (SetMaximumDelay 50 scenario_manager)) = 50.
Proof.
  destruct (SetMaximumDelay_contract 50 scenario_manager)
    as (_ & Hiff & Hstore & _).
  assert (Hnz : 50 <> 0) by lia.
  assert (Hge : minimum_delay_ms_ scenario_manager <= 50 /\
                packet_len_ms_ scenario_manager <= 50)
    by (vm_compute; split; discriminate).
  assert (Hok : fst (SetMaximumDelay 50 scenario_manager) = true)
    by (apply (Hiff Hnz); exact Hge).
  split; [exact Hnz|]. split; [exact Hge|]. split; [exact Hok|].
  apply (Hstore Hok).
Defined.

Lemma MinimumDelayUpperBound_and_effective_minimum_witness :
  in_int (3 * max_packets_in_buffer_ negative_capacity_manager *
          packet_len_ms_ negative_capacity_manager) /\
  MinimumDelayUpperBound negative_capacity_manager =
    truncating_MinimumDelayUpperBound negative_capacity_manager /\
  (0 <= max_packets_in_buffer_ scenario_manager /\
   0 <= packet_len_ms_ scenario_manager /\
   in_int (3 * max_packets_in_buffer_ scenario_manager *
           packet_len_ms_ scenario_manager)) /\
  MinimumDelayUpperBound scenario_manager = spec_MinimumDelayUpperBound scenario_manager /\
  MinimumDelayUpperBound scenario_manager = 3000 /\
  effective_minimum_delay_ms_ (snd (SetMaximumDelay 50 scenario_manager)) =
  Z.max (minimum_delay_ms_ (snd (SetMaximumDelay 50 scenario_manager)))
    (spec_clamp (base_minimum_delay_ms_ (snd (SetMaximumDelay 50 scenario_manager)))
       0 (MinimumDelayUpperBound (snd (SetMaximumDelay 50 scenario_manager)))).
Proof.
  destruct (MinimumDelayUpperBound_and_effective_minimum newer_by_signed_delta
              negative_capacity_manager) as (Hneg & _).
  destruct (MinimumDelayUpperBound_and_effective_minimum newer_by_signed_delta
              scenario_manager) as (Hcode & Hspec & _ & Heff).
  assert (Hfit0 : in_int (3 * max_packets_in_buffer_ negative_capacity_manager *
                          packet_len_ms_ negative_capacity_manager))
    by (vm_compute; split; discriminate).
  assert (H1 : 0 <= max_packets_in_buffer_ scenario_manager)
    by (vm_compute; discriminate).
  assert (H2 : 0 <= packet_len_ms_ scenario_manager)
    by (vm_compute; discriminate).
  assert (H3 : in_int (3 * max_packets_in_buffer_ scenario_manager *
                       packet_len_ms_ scenario_manager))
    by (vm_compute; split; discriminate).
  split; [exact Hfit0|]. split; [exact (Hneg Hfit0)|].
  split; [repeat split; assumption || apply H3|].
  split; [rewrite (Hcode H3); exact (Hspec H1 H2)|].
  split; [reflexivity|].
  apply (Heff 50 _ SetMaximumDelay); [right; left; reflexivity|reflexivity].
Defined.

(** C5 as stated fails: with the capacity -3 and 7 ms packets (no overflow)
    the code finds [q75 = -15], not positive, and returns 10000, where the
    stated formula gives [floor(-63 / 4) = -16]. *)
Lemma MinimumDelayUpperBound_counterexample :
  MinimumDelayUpperBound negative_capacity_manager = 10000 /\
  spec_MinimumDelayUpperBound negative_capacity_manager = -16 /\
  MinimumDelayUpperBound negative_capacity_manager <>
    spec_MinimumDelayUpperBound negative_capacity_manager.
Proof.
  split; [reflexivity|]. split; [reflexivity|].
  vm_compute. discriminate.
Qed.

Lemma Update_reorder_classification_witness :
  0 < 8000 /\
  first_packet_received_ tracking_manager = true /\
  newer_by_signed_delta 4294967136 (last_timestamp_ tracking_manager) = false /\
  num_reordered_packets_ tracking_manager < 5 /\
  fst (Update newer_by_signed_delta 20 4294967136 8000 false tracking_manager) =
    Some 40 /\
  last_timestamp_
    (snd (Update newer_by_signed_delta 20 4294967136 8000 false tracking_manager)) =
    last_timestamp_ tracking_manager /\
  fst (Update newer_by_signed_delta 13 4294967136 8000 false tracking_manager) =
    Some (Z.max (13 - Z.quot (1000 * -160) 8000) 0).
Proof.
  assert (Hr : 0 < 8000) by lia.
  assert (Hf : first_packet_received_ tracking_manager = true) by reflexivity.
  assert (Hn : newer_by_signed_delta 4294967136 (last_timestamp_ tracking_manager)
               = false) by reflexivity.
  assert (Hc : num_reordered_packets_ tracking_manager < 5) by reflexivity.
  destruct (Update_reorder_classification newer_by_signed_delta 20 4294967136
              8000 tracking_manager Hr Hf) as (_ & Hre & _).
  destruct (Hre Hn) as (Hret & _ & Hkeep).
  destruct (Hkeep Hc) as (_ & Hlast & _).
  destruct (Update_reorder_classification newer_by_signed_delta 13 4294967136
              8000 tracking_manager Hr Hf) as (Hexact & Hre13 & _).
  destruct (Hre13 Hn) as (Hret13 & _).
  cbv zeta in Hexact.
  assert (Hmul : in_int
            (1000 * to_int32 (u32_sub 4294967136 (last_timestamp_ tracking_manager))))
    by (vm_compute; split; discriminate).
  assert (Hsub : in_int
            (to_int32 (13 - started_at (packet_iat_stopwatch_ tracking_manager)) -
             Z.quot (1000 * to_int32 (u32_sub 4294967136
                                        (last_timestamp_ tracking_manager))) 8000))
    by (vm_compute; split; discriminate).
  split; [exact Hr|]. split; [exact Hf|]. split; [exact Hn|].
  split; [exact Hc|]. split; [exact Hret|]. split; [exact Hlast|].
  rewrite Hret13. cbv zeta. rewrite (Hexact Hmul Hsub). reflexivity.
Defined.

Lemma reorder_tolerance_witness :
  first_packet_received_ warm_manager = true /\
  num_reordered_packets_ warm_manager = 0 /\
  (length (map late_packet [40; 50; 60; 70; 80]%Z) <= 5)%nat /\
  Forall (reordered_wrt newer_by_signed_delta (last_timestamp_ warm_manager))
    (map late_packet [40; 50; 60; 70; 80]) /\
  delay_history_ warm_manager =
    [{| iat_delay_ms := 5; timestamp := 160 |};
     {| iat_delay_ms := -10; timestamp := 320 |}] /\
  delay_history_
    (feed newer_by_signed_delta (map late_packet [40; 50; 60; 70; 80])
       warm_manager) =
    [{| iat_delay_ms := 5; timestamp := 160 |};
     {| iat_delay_ms := -10; timestamp := 320 |}] /\
  num_reordered_packets_
    (feed newer_by_signed_delta (map late_packet [40; 50; 60; 70; 80])
       warm_manager) = 5 /\
  last_timestamp_
    (feed newer_by_signed_delta (map late_packet [40; 50; 60; 70; 80])
       warm_manager) = 320 /\
  delay_history_
    (feed newer_by_signed_delta
       (map late_packet [40; 50; 60; 70; 80] ++ [late_packet 90])
       warm_manager) = [] /\
  num_reordered_packets_
    (feed newer_by_signed_delta
       (map late_packet [40; 50; 60; 70; 80] ++ [late_packet 90])
       warm_manager) = 0 /\
  last_timestamp_
    (feed newer_by_signed_delta
       (map late_packet [40; 50; 60; 70; 80] ++ [late_packet 90])
       warm_manager) = 4294967136.
Proof.
  assert (Hf : first_packet_received_ warm_manager = true) by reflexivity.
  assert (Hz : num_reordered_packets_ warm_manager = 0) by reflexivity.
  assert (Hlen : (length (map late_packet [40; 50; 60; 70; 80]%Z) <= 5)%nat)
    by (cbn; lia).
  assert (Hlate : forall t,
            reordered_wrt newer_by_signed_delta
              (last_timestamp_ warm_manager) (late_packet t))
    by (intros t; split; reflexivity).
  assert (Hall : Forall (reordered_wrt newer_by_signed_delta
                           (last_timestamp_ warm_manager))
                   (map late_packet [40; 50; 60; 70; 80]))
    by (repeat constructor; apply Hlate).
  assert (Hwarm : delay_history_ warm_manager =
                  [{| iat_delay_ms := 5; timestamp := 160 |};
                   {| iat_delay_ms := -10; timestamp := 320 |}])
    by reflexivity.
  destruct (reorder_tolerance newer_by_signed_delta warm_manager
              (map late_packet [40; 50; 60; 70; 80]) (late_packet 90)
              Hf Hz Hlen Hall) as (Hkeep & Hcount & _ & Hlast5 & _ & Hsixth).
  destruct (Hsixth eq_refl (Hlate 90)) as (Hclear & Hzero & Hlast & _ & _).
  split; [exact Hf|]. split; [exact Hz|]. split; [exact Hlen|].
  split; [exact Hall|]. split; [exact Hwarm|].
  split; [rewrite Hkeep; exact Hwarm|]. split; [exact Hcount|].
  split; [rewrite Hlast5; reflexivity|]. split; [exact Hclear|].
  split; [exact Hzero|exact Hlast].
Defined.

Lemma in_order_relative_delay_witness :
  0 < 8000 /\
  first_packet_received_ warm_manager = true /\
  newer_by_signed_delta 480 (last_timestamp_ warm_manager) = true /\
  map iat_delay_ms
    (delay_history_
       (snd (Update newer_by_signed_delta 62 480 8000 false warm_manager))) =
    [5; -10; 7] /\
  sum_fits_int [5; -10; 7] /\
  fst (Update newer_by_signed_delta 62 480 8000 false warm_manager) =
    Some (running_sum_clamped [5; -10; 7]) /\
  running_sum_clamped [5; -10; 7] = 7 /\
  5 + -10 + 7 = 2.
Proof.
  assert (Hr : 0 < 8000) by lia.
  assert (Hf : first_packet_received_ warm_manager = true) by reflexivity.
  assert (Hn : newer_by_signed_delta 480 (last_timestamp_ warm_manager) = true)
    by reflexivity.
  assert (Hsamples : map iat_delay_ms
            (delay_history_
               (snd (Update newer_by_signed_delta 62 480 8000 false
                       warm_manager))) = [5; -10; 7]) by reflexivity.
  assert (Hfit : sum_fits_int [5; -10; 7]).
  { split.
    - repeat constructor; vm_compute; discriminate.
    - vm_compute; discriminate. }
  destruct (in_order_relative_delay newer_by_signed_delta 62 480 8000
              warm_manager Hr Hf Hn) as (_ & v & Hret & _ & Hsum).
  cbv zeta in Hsum. rewrite Hsamples in Hsum.
  split; [exact Hr|]. split; [exact Hf|]. split; [exact Hn|].
  split; [exact Hsamples|]. split; [exact Hfit|].
  split; [rewrite Hret, (Hsum Hfit); reflexivity|].
  split; reflexivity.
Defined.

Lemma history_within_horizon_witness :
  (forall x y, newer_by_signed_delta x y = true -> 0 < u32_sub x y <= 2147483648) /\
  Forall rate_in_range
    [CallUpdate 0 0 8000 false; CallUpdate 20 160 8000 false;
     CallUpdate 2040 16480 8000 false] /\
  within_horizon 16480 16000
    (delay_history_
       (run newer_by_signed_delta
          [CallUpdate 0 0 8000 false; CallUpdate 20 160 8000 false;
           CallUpdate 2040 16480 8000 false]
          fresh_manager)).
Proof.
  assert (Hrates : Forall rate_in_range
            [CallUpdate 0 0 8000 false; CallUpdate 20 160 8000 false;
             CallUpdate 2040 16480 8000 false])
    by (repeat constructor; vm_compute; discriminate).
  destruct (history_within_horizon newer_by_signed_delta
              [CallUpdate 0 0 8000 false; CallUpdate 20 160 8000 false;
               CallUpdate 2040 16480 8000 false]
              200 0 1041529569 0 empty_tally
              newer_by_signed_delta_bounds Hrates) as [Estate Hwithin].
  split; [exact newer_by_signed_delta_bounds|]. split; [exact Hrates|].
  rewrite Estate in Hwithin.
  exact (Hwithin 16480 eq_refl).
Defined.

Lemma bounds_after_tracking_Update_witness :
  0 < 8000 /\
  first_packet_received_
    (run newer_by_signed_delta
       [CallUpdate 0 0 8000 false; CallSetMinimumDelay 100] fresh_manager) = true /\
  packet_len_ms_
    (run newer_by_signed_delta
       [CallUpdate 0 0 8000 false; CallSetMinimumDelay 100] fresh_manager) = 0 /\
  bounds_hold
    (snd (Update newer_by_signed_delta 20 160 8000 false
            (run newer_by_signed_delta
               [CallUpdate 0 0 8000 false; CallSetMinimumDelay 100] fresh_manager))).
Proof.
  assert (Hr : 0 < 8000) by lia.
  assert (Hf : first_packet_received_
            (run newer_by_signed_delta
               [CallUpdate 0 0 8000 false; CallSetMinimumDelay 100]
               fresh_manager) = true) by reflexivity.
  assert (Hlen : packet_len_ms_
            (run newer_by_signed_delta
               [CallUpdate 0 0 8000 false; CallSetMinimumDelay 100]
               fresh_manager) = 0) by reflexivity.
  destruct (bounds_after_tracking_Update newer_by_signed_delta
              [CallUpdate 0 0 8000 false; CallSetMinimumDelay 100]
              200 0 1041529569 0 empty_tally 20 160 8000 Hr Hf) as [Hlow Hhigh].
  split; [exact Hr|]. split; [exact Hf|]. split; [exact Hlen|].
  split.
  - apply Hlow. left. exact Hlen.
  - intros Hmax. apply Hhigh; [exact Hmax|]. left. exact Hlen.
Defined.

(** C1 as stated fails: a setter that tightens the minimum leaves the
    published target below it until the next [Update]; and an [Update]
    itself lets the packet-length floor override a smaller maximum. *)
Lemma bounds_invariant_counterexample :
  bounds_hold fresh_manager /\
  fst (SetMinimumDelay 100 fresh_manager) = true /\
  ~ bounds_hold (step newer_by_signed_delta (CallSetMinimumDelay 100) fresh_manager) /\
  ~ bounds_hold
      (run newer_by_signed_delta
         [CallUpdate 0 0 8000 false; CallSetMaximumDelay 50;
          CallSetPacketAudioLength 60; CallUpdate 20 160 8000 false]
         fresh_manager).
Proof.
  split; [split; [vm_compute; discriminate|vm_compute; intros E; discriminate E]|].
  split; [reflexivity|]. split.
  - intros [Hlow _]. vm_compute in Hlow. apply Hlow. reflexivity.
  - intros [_ Hhigh]. vm_compute in Hhigh. apply Hhigh; reflexivity.
Qed.

(** * Further properties of the manager *)

Section MoreProperties.

Context {H : Type} {Hist : Histogram H}.
Variable IsNewerTimestamp : Z -> Z -> bool.

(** ** The bound setters *)

Lemma SetMinimumDelay_cases (delay_ms : Z) (s : DelayManager H) :
  (~ 0 <= delay_ms <= MinimumDelayUpperBound s /\
   SetMinimumDelay delay_ms s = (false, s)) \/
  (0 <= delay_ms <= MinimumDelayUpperBound s /\
   SetMinimumDelay delay_ms s =
   (true, UpdateEffectiveMinimumDelay (set_minimum_delay_ms delay_ms s))).
Proof.
  unfold SetMinimumDelay, IsValidMinimumDelay.
  destruct (Z.leb_spec 0 delay_ms); cbn [andb negb].
  - destruct (Z.leb_spec delay_ms (MinimumDelayUpperBound s)); cbn [negb].
    + right. split; [lia|reflexivity].
    + left. split; [lia|reflexivity].
  - left. split; [lia|reflexivity].
Qed.

Lemma SetBaseMinimumDelay_cases (delay_ms : Z) (s : DelayManager H) :
  (~ 0 <= delay_ms <= 10000 /\
   SetBaseMinimumDelay delay_ms s = (false, s)) \/
  (0 <= delay_ms <= 10000 /\
   SetBaseMinimumDelay delay_ms s =
   (true, UpdateEffectiveMinimumDelay (set_base_minimum_delay_ms delay_ms s))).
Proof.
  unfold SetBaseMinimumDelay, IsValidBaseMinimumDelay,
    kMinBaseMinimumDelayMs, kMaxBaseMinimumDelayMs.
  destruct (Z.leb_spec 0 delay_ms); cbn [andb negb].
  - destruct (Z.leb_spec delay_ms 10000); cbn [negb].
    + right. split; [lia|reflexivity].
    + left. split; [lia|reflexivity].
  - left. split; [lia|reflexivity].
Qed.

Lemma MinimumDelayUpperBound_range (s : DelayManager H) :
  0 < MinimumDelayUpperBound s /\
  MinimumDelayUpperBound s <=
    (if 0 <? maximum_delay_ms_ s then maximum_delay_ms_ s else 10000).
Proof.
  split; [apply MinimumDelayUpperBound_pos|].
  unfold MinimumDelayUpperBound, kMaxBaseMinimumDelayMs.
  destruct (0 <? maximum_delay_ms_ s); lia.
Qed.

(** X1: [SetMinimumDelay] accepts exactly the delays between 0 and
    [MinimumDelayUpperBound()]; an accepted delay is stored and the
    effective minimum is recomputed to at least that delay; a rejected call
    changes nothing.  Zero is always accepted, and with a maximum set every
    delay above the maximum is rejected. *)
Theorem SetMinimumDelay_contract (delay_ms : Z) (s : DelayManager H) :
  (fst (SetMinimumDelay delay_ms s) = true <->
   0 <= delay_ms <= MinimumDelayUpperBound s) /\
  (fst (SetMinimumDelay delay_ms s) = true ->
   minimum_delay_ms_ (snd (SetMinimumDelay delay_ms s)) = delay_ms /\
   effective_minimum_delay_ms_ (snd (SetMinimumDelay delay_ms s)) =
     Z.max delay_ms
       (spec_clamp (base_minimum_delay_ms_ s) 0 (MinimumDelayUpperBound s)) /\
   delay_ms <= effective_minimum_delay_ms_ (snd (SetMinimumDelay delay_ms s))) /\
  (fst (SetMinimumDelay delay_ms s) = false ->
   snd (SetMinimumDelay delay_ms s) = s) /\
  fst (SetMinimumDelay 0 s) = true /\
  (0 < maximum_delay_ms_ s -> maximum_delay_ms_ s < delay_ms ->
   SetMinimumDelay delay_ms s = (false, s)).
Proof.
  destruct (MinimumDelayUpperBound_range s) as [Hpos Hup].
  split; [|split; [|split; [|split]]].
  - destruct (SetMinimumDelay_cases delay_ms s) as [[Hn E]|[Hy E]];
      rewrite E; cbn [fst]; split; intros; try discriminate; try lia;
      try reflexivity; try assumption.
  - destruct (SetMinimumDelay_cases delay_ms s) as [[Hn E]|[Hy E]];
      rewrite E; cbn [fst snd]; intros Hok; [discriminate|].
    rewrite UpdateEffectiveMinimumDelay_value.
    change (MinimumDelayUpperBound (set_minimum_delay_ms delay_ms s))
      with (MinimumDelayUpperBound s).
    cbn [set_minimum_delay_ms minimum_delay_ms_ base_minimum_delay_ms_
         UpdateEffectiveMinimumDelay set_effective_minimum_delay_ms].
    repeat split; lia.
  - destruct (SetMinimumDelay_cases delay_ms s) as [[Hn E]|[Hy E]];
      rewrite E; cbn [fst snd]; intros Hok; [reflexivity|discriminate].
  - destruct (SetMinimumDelay_cases 0 s) as [[Hn E]|[Hy E]];
      rewrite E; cbn [fst]; [lia|reflexivity].
  - intros Hmax Hgt.
    destruct (SetMinimumDelay_cases delay_ms s) as [[Hn E]|[Hy E]];
      [exact E|].
    destruct (Z.ltb_spec 0 (maximum_delay_ms_ s)); lia.
Qed.

(** X2: [SetBaseMinimumDelay] accepts exactly the delays in [0, 10000]; an
    accepted delay is what [GetBaseMinimumDelay] then returns, unclamped,
    while the effective minimum takes it only up to
    [MinimumDelayUpperBound()]; a rejected call changes nothing. *)
Theorem SetBaseMinimumDelay_contract (delay_ms : Z) (s : DelayManager H) :
  (fst (SetBaseMinimumDelay delay_ms s) = true <-> 0 <= delay_ms <= 10000) /\
  (fst (SetBaseMinimumDelay delay_ms s) = true ->
   GetBaseMinimumDelay (snd (SetBaseMinimumDelay delay_ms s)) = delay_ms /\
   minimum_delay_ms_ (snd (SetBaseMinimumDelay delay_ms s)) = minimum_delay_ms_ s /\
   effective_minimum_delay_ms_ (snd (SetBaseMinimumDelay delay_ms s)) =
     Z.max (minimum_delay_ms_ s) (Z.min delay_ms (MinimumDelayUpperBound s)) /\
   effective_minimum_delay_ms_ (snd (SetBaseMinimumDelay delay_ms s)) <=
     Z.max (minimum_delay_ms_ s) (MinimumDelayUpperBound s)) /\
  (fst (SetBaseMinimumDelay delay_ms s) = false ->
   snd (SetBaseMinimumDelay delay_ms s) = s /\
   GetBaseMinimumDelay (snd (SetBaseMinimumDelay delay_ms s)) =
     GetBaseMinimumDelay s).
Proof.
  destruct (MinimumDelayUpperBound_range s) as [Hpos _].
  split; [|split].
  - destruct (SetBaseMinimumDelay_cases delay_ms s) as [[Hn E]|[Hy E]];
      rewrite E; cbn [fst]; split; intros; try discriminate; try lia;
      try reflexivity; try assumption.
  - destruct (SetBaseMinimumDelay_cases delay_ms s) as [[Hn E]|[Hy E]];
      rewrite E; cbn [fst snd]; intros Hok; [discriminate|].
    rewrite UpdateEffectiveMinimumDelay_value.
    change (MinimumDelayUpperBound (set_base_minimum_delay_ms delay_ms s))
      with (MinimumDelayUpperBound s).
    unfold GetBaseMinimumDelay, spec_clamp.
    cbn [set_base_minimum_delay_ms minimum_delay_ms_ base_minimum_delay_ms_
         UpdateEffectiveMinimumDelay set_effective_minimum_delay_ms].
    repeat split; lia.
  - destruct (SetBaseMinimumDelay_cases delay_ms s) as [[Hn E]|[Hy E]];
      rewrite E; cbn [fst snd]; intros Hok; [split; reflexivity|discriminate].
Qed.

(** ** What the other calls leave alone *)

(** X3: only the three bound setters write the bound configuration:
    [Update], [SetPacketAudioLength] and [Reset] leave the minimum, maximum,
    base minimum and effective minimum delay as they were (the effective
    minimum is not recomputed when the packet length changes); and no call
    ever changes the buffer capacity or the histogram quantile. *)
Theorem bound_configuration_frame (c : Call) (s : DelayManager H) :
  (is_bound_setter c = false ->
   minimum_delay_ms_ (step IsNewerTimestamp c s) = minimum_delay_ms_ s /\
   maximum_delay_ms_ (step IsNewerTimestamp c s) = maximum_delay_ms_ s /\
   base_minimum_delay_ms_ (step IsNewerTimestamp c s) = base_minimum_delay_ms_ s /\
   effective_minimum_delay_ms_ (step IsNewerTimestamp c s) =
     effective_minimum_delay_ms_ s) /\
  max_packets_in_buffer_ (step IsNewerTimestamp c s) = max_packets_in_buffer_ s /\
  histogram_quantile_ (step IsNewerTimestamp c s) = histogram_quantile_ s.
Proof.
  destruct c as [d|d|d|d|t ts r reset|t]; cbn [step is_bound_setter].
  - split; [discriminate|].
    destruct (SetMinimumDelay_cases d s) as [[_ E]|[_ E]]; rewrite E;
      split; reflexivity.
  - split; [discriminate|].
    destruct (SetMaximumDelay_cases d s) as [(_ & _ & E)|(_ & E)]; rewrite E;
      split; reflexivity.
  - split; [discriminate|].
    destruct (SetBaseMinimumDelay_cases d s) as [[_ E]|[_ E]]; rewrite E;
      split; reflexivity.
  - unfold SetPacketAudioLength. destruct (d <=? 0); repeat split; reflexivity.
  - unfold Update.
    destruct (r <=? 0); [repeat split; reflexivity|].
    destruct (negb (first_packet_received_ s) || reset);
      [repeat split; reflexivity|].
    destruct (negb (IsNewerTimestamp ts (last_timestamp_ s)) &&
              (num_reordered_packets_ s <? kMaxNumReorderedPackets));
      repeat split; reflexivity.
  - repeat split; reflexivity.
Qed.

(** ** The bound configuration of reachable managers *)

Lemma bounds_config_ok_recomputed (s : DelayManager H) :
  0 <= minimum_delay_ms_ s ->
  0 <= maximum_delay_ms_ s ->
  0 <= packet_len_ms_ s ->
  kMinBaseMinimumDelayMs <= base_minimum_delay_ms_ s <= kMaxBaseMinimumDelayMs ->
  (0 < maximum_delay_ms_ s -> minimum_delay_ms_ s <= maximum_delay_ms_ s) ->
  bounds_config_ok (UpdateEffectiveMinimumDelay s).
Proof.
  intros Hmin Hmax Hlen Hbase Hle. unfold bounds_config_ok.
  rewrite UpdateEffectiveMinimumDelay_value.
  cbn [UpdateEffectiveMinimumDelay set_effective_minimum_delay_ms
       minimum_delay_ms_ maximum_delay_ms_ packet_len_ms_ base_minimum_delay_ms_].
  destruct (MinimumDelayUpperBound_range s) as [Hpos _].
  split; [assumption|]. split; [assumption|]. split; [assumption|].
  split; [assumption|]. split; [lia|].
  intros Hset. specialize (Hle Hset).
  pose proof (MinimumDelayUpperBound_le_maximum s Hset).
  unfold spec_clamp. lia.
Qed.

Lemma bounds_config_ok_step (c : Call) (s : DelayManager H) :
  bounds_config_ok s -> bounds_config_ok (step IsNewerTimestamp c s).
Proof.
  intros Hok. pose proof Hok as (Hmin & Hmax & Hlen & Hbase & Heff & Hle).
  destruct c as [d|d|d|d|t ts r reset|t]; cbn [step].
  - destruct (SetMinimumDelay_cases d s) as [[_ E]|[Hd E]]; rewrite E;
      cbn [snd]; [exact Hok|].
    apply bounds_config_ok_recomputed; cbn; try assumption; try lia.
    intros Hset. pose proof (MinimumDelayUpperBound_le_maximum s Hset). lia.
  - destruct (SetMaximumDelay_cases d s) as [(_ & _ & E)|(Hd & E)]; rewrite E;
      cbn [snd]; [exact Hok|].
    apply bounds_config_ok_recomputed; cbn; try assumption; try lia.
  - destruct (SetBaseMinimumDelay_cases d s) as [[_ E]|[Hd E]]; rewrite E;
      cbn [snd]; [exact Hok|].
    apply bounds_config_ok_recomputed; cbn; try assumption.
    intros Hset. apply Hle. exact Hset.
  - unfold SetPacketAudioLength.
    destruct (Z.leb_spec d 0); cbn [snd]; [exact Hok|].
    unfold bounds_config_ok. cbn.
    split; [assumption|]. split; [assumption|]. split; [lia|].
    split; [assumption|]. split; [assumption|]. exact Hle.
  - destruct (bound_configuration_frame (CallUpdate t ts r reset) s)
      as [Hframe _].
    destruct (Hframe eq_refl) as (E1 & E2 & E3 & E4). cbn [step] in *.
    destruct (Update_frame_config IsNewerTimestamp t ts r reset s)
      as (_ & _ & _ & E5 & _).
    unfold bounds_config_ok. rewrite E1, E2, E3, E4, E5. exact Hok.
  - unfold bounds_config_ok. cbn.
    split; [assumption|]. split; [assumption|]. split; [lia|].
    split; [assumption|]. split; [assumption|]. exact Hle.
Qed.

(** X4: on every manager reached from a construction with a base minimum
    delay in [0, 10000], by any sequence of calls: the minimum and maximum
    delay and the packet length are non-negative, the base minimum delay
    stays in [0, 10000], the effective minimum is at least the minimum, and
    a set maximum is never below the minimum or the effective minimum. *)
Theorem bounds_config_ok_reachable (cs : list Call) (m b q : Z) (t : TickTimer)
  (h : H) :
  0 <= b <= 10000 ->
  bounds_config_ok (run IsNewerTimestamp cs (DelayManager_new m b q t h)).
Proof.
  intros Hb.
  assert (Hinit : bounds_config_ok (DelayManager_new m b q t h)).
  { unfold bounds_config_ok, kMinBaseMinimumDelayMs, kMaxBaseMinimumDelayMs.
    cbn. split; [lia|]. split; [lia|]. split; [lia|]. split; [lia|].
    split; lia. }
  revert Hinit. generalize (DelayManager_new m b q t h) as s.
  unfold run. induction cs as [|c cs IH]; intros s Hok; cbn [fold_left].
  - exact Hok.
  - apply IH. apply bounds_config_ok_step. exact Hok.
Qed.

(** ** The value [Update] returns and what it feeds the histogram *)

Lemma relative_delay_loop_range (h : list PacketDelay) :
  forall acc, 0 <= acc <= INT_MAX ->
  0 <= fold_left
         (fun relative_delay delay =>
            Z.max (int_add relative_delay (iat_delay_ms delay)) 0) h acc
    <= INT_MAX.
Proof.
  induction h as [|d h IH]; intros acc Hacc; cbn [fold_left].
  - exact Hacc.
  - apply IH.
    pose proof (to_int32_range (acc + iat_delay_ms d)) as Hr.
    unfold int_add, in_int, INT_MIN, INT_MAX in *. lia.
Qed.

Lemma Update_tracking_shape (tick_timer : TickTimer) (ts sample_rate_hz : Z)
  (s : DelayManager H) :
  0 < sample_rate_hz ->
  first_packet_received_ s = true ->
  exists v,
    fst (Update IsNewerTimestamp tick_timer ts sample_rate_hz false s) = Some v /\
    0 <= v <= INT_MAX /\
    histogram_ (snd (Update IsNewerTimestamp tick_timer ts sample_rate_hz false s)) =
      (if int_div v kBucketSizeMs <? NumBuckets (histogram_ s)
       then Add (int_div v kBucketSizeMs) (histogram_ s)
       else histogram_ s).
Proof.
  intros Hr Hf. unfold Update.
  destruct (Z.leb_spec sample_rate_hz 0); [lia|].
  rewrite Hf. cbn [negb orb].
  destruct (IsNewerTimestamp ts (last_timestamp_ s)); cbn [negb andb].
  - eexists. split; [reflexivity|]. split; [|reflexivity].
    apply relative_delay_loop_range. unfold INT_MAX. lia.
  - pose proof (to_int32_range
                  (to_int32 (ElapsedMs tick_timer (packet_iat_stopwatch_ s)) -
                   int_div (int_mul 1000
                              (to_int32 (u32_sub ts (last_timestamp_ s))))
                           sample_rate_hz)) as Hrange.
    fold (int_sub (to_int32 (ElapsedMs tick_timer (packet_iat_stopwatch_ s)))
            (int_div (int_mul 1000 (to_int32 (u32_sub ts (last_timestamp_ s))))
               sample_rate_hz)) in Hrange.
    fold (iat_delay_of tick_timer ts sample_rate_hz s) in Hrange.
    destruct (num_reordered_packets_ s <? kMaxNumReorderedPackets);
      (eexists; split; [reflexivity|]; split; [|reflexivity];
       unfold in_int, INT_MIN, INT_MAX in *; lia).
Qed.

Lemma Update_not_tracking (tick_timer : TickTimer) (ts sample_rate_hz : Z)
  (reset : bool) (s : DelayManager H) :
  sample_rate_hz <= 0 \/ first_packet_received_ s = false \/ reset = true ->
  fst (Update IsNewerTimestamp tick_timer ts sample_rate_hz reset s) = None /\
  histogram_ (snd (Update IsNewerTimestamp tick_timer ts sample_rate_hz reset s)) =
    histogram_ s /\
  target_level_ms_
    (snd (Update IsNewerTimestamp tick_timer ts sample_rate_hz reset s)) =
    target_level_ms_ s.
Proof.
  intros Hcase. destruct (Z.le_gt_cases sample_rate_hz 0) as [Hr|Hr].
  - rewrite (Update_nonpositive_rate IsNewerTimestamp) by assumption.
    repeat split; reflexivity.
  - rewrite (Update_restart_any IsNewerTimestamp) by (try lia; intuition lia).
    repeat split; reflexivity.
Qed.

(** X5: [Update] produces a value exactly in the tracking state (valid
    rate, a packet already received, no reset flag); the value is never
    negative and fits [int]. *)
Theorem Update_result (tick_timer : TickTimer) (ts sample_rate_hz : Z)
  (reset : bool) (s : DelayManager H) :
  (fst (Update IsNewerTimestamp tick_timer ts sample_rate_hz reset s) = None <->
   sample_rate_hz <= 0 \/ first_packet_received_ s = false \/ reset = true) /\
  (forall v,
     fst (Update IsNewerTimestamp tick_timer ts sample_rate_hz reset s) = Some v ->
     0 <= v <= INT_MAX).
Proof.
  destruct (Z.le_gt_cases sample_rate_hz 0) as [Hr|Hr];
    [|destruct (first_packet_received_ s) eqn:Hf; [destruct reset|]].
  - destruct (Update_not_tracking tick_timer ts sample_rate_hz reset s) as [E _];
      [left; exact Hr|].
    rewrite E. split; [split; auto|discriminate].
  - destruct (Update_not_tracking tick_timer ts sample_rate_hz true s) as [E _];
      [right; right; reflexivity|].
    rewrite E. split; [split; auto|discriminate].
  - destruct (Update_tracking_shape tick_timer ts sample_rate_hz s)
      as (v & E & Hv & _); [lia|exact Hf|].
    rewrite E. split.
    + split; [discriminate|]. intros [Hc|[Hc|Hc]]; [lia|discriminate..].
    + intros v' [= <-]. exact Hv.
  - destruct (Update_not_tracking tick_timer ts sample_rate_hz reset s) as [E _];
      [right; left; exact Hf|].
    rewrite E. split; [split; auto|discriminate].
Qed.

(** X6: [Update] hands the histogram at most one observation, and only a
    valid bucket: when it returns the delay [v], the histogram is
    [Add(v / 20)] of the old one if [v / 20 < NumBuckets()], and the old one
    otherwise; [v / 20] is never negative.  When it returns nothing the
    histogram and the target level are untouched. *)
Theorem histogram_is_fed_valid_buckets (tick_timer : TickTimer)
  (ts sample_rate_hz : Z) (reset : bool) (s : DelayManager H) :
  (fst (Update IsNewerTimestamp tick_timer ts sample_rate_hz reset s) = None ->
   histogram_ (snd (Update IsNewerTimestamp tick_timer ts sample_rate_hz reset s)) =
     histogram_ s /\
   target_level_ms_
     (snd (Update IsNewerTimestamp tick_timer ts sample_rate_hz reset s)) =
     target_level_ms_ s) /\
  (forall v,
     fst (Update IsNewerTimestamp tick_timer ts sample_rate_hz reset s) = Some v ->
     0 <= v / 20 /\
     histogram_ (snd (Update IsNewerTimestamp tick_timer ts sample_rate_hz reset s)) =
       (if v / 20 <? NumBuckets (histogram_ s)
        then Add (v / 20) (histogram_ s)
        else histogram_ s)).
Proof.
  destruct (Z.le_gt_cases sample_rate_hz 0) as [Hr|Hr];
    [|destruct (first_packet_received_ s) eqn:Hf; [destruct reset|]].
  - destruct (Update_not_tracking tick_timer ts sample_rate_hz reset s)
      as (E & Eh & Et); [left; exact Hr|].
    rewrite E. split; [auto|discriminate].
  - destruct (Update_not_tracking tick_timer ts sample_rate_hz true s)
      as (E & Eh & Et); [right; right; reflexivity|].
    rewrite E. split; [auto|discriminate].
  - destruct (Update_tracking_shape tick_timer ts sample_rate_hz s)
      as (v & E & Hv & Eh); [lia|exact Hf|].
    rewrite E. split; [discriminate|].
    intros v' [= <-].
    unfold kBucketSizeMs in Eh. rewrite int_div_nonneg in Eh by lia.
    split; [apply Z.div_pos; lia|exact Eh].
  - destruct (Update_not_tracking tick_timer ts sample_rate_hz reset s)
      as (E & Eh & Et); [right; left; exact Hf|].
    rewrite E. split; [auto|discriminate].
Qed.

(** X7: in the tracking state with a known packet length, the target level
    [Update] publishes never exceeds the 75%-of-buffer ceiling (which is
    [3 * max_packets_in_buffer * packet_len_ms / 4] when that product fits
    [int]), and it is at least one packet long whenever the ceiling allows
    one packet. *)
Theorem target_within_buffer (tick_timer : TickTimer) (ts sample_rate_hz : Z)
  (s : DelayManager H) :
  0 < sample_rate_hz ->
  first_packet_received_ s = true ->
  0 < packet_len_ms_ s ->
  let s' := snd (Update IsNewerTimestamp tick_timer ts sample_rate_hz false s) in
  target_level_ms_ s' <= buffer_ceiling s /\
  Z.min (packet_len_ms_ s) (buffer_ceiling s) <= target_level_ms_ s' /\
  (packet_len_ms_ s <= buffer_ceiling s -> packet_len_ms_ s <= target_level_ms_ s') /\
  (0 <= max_packets_in_buffer_ s ->
   3 * max_packets_in_buffer_ s * packet_len_ms_ s <= INT_MAX ->
   target_level_ms_ s' <= 3 * max_packets_in_buffer_ s * packet_len_ms_ s / 4).
Proof.
  intros Hr Hf Hlen s'.
  destruct (Update_tracking_target IsNewerTimestamp tick_timer ts sample_rate_hz
              s Hr Hf) as (hg & Et).
  fold s' in Et. rewrite Et. unfold new_target_level. fold (buffer_ceiling s).
  destruct (Z.ltb_spec 0 (packet_len_ms_ s)); [|lia].
  split; [lia|]. split; [lia|]. split; [lia|].
  intros Hm Hfit.
  assert (Hc : buffer_ceiling s =
               3 * max_packets_in_buffer_ s * packet_len_ms_ s / 4).
  { unfold buffer_ceiling.
    assert (0 <= 3 * max_packets_in_buffer_ s) by lia.
    assert (0 <= 3 * max_packets_in_buffer_ s * packet_len_ms_ s) by nia.
    rewrite (int_mul_small 3) by (unfold in_int, INT_MIN, INT_MAX in *; nia).
    rewrite int_mul_small by (unfold in_int, INT_MIN, INT_MAX in *; lia).
    apply int_div_nonneg; lia. }
  rewrite <- Hc. lia.
Qed.

(** ** The reorder counter and the tracking flag *)

Lemma reorder_counter_step (c : Call) (s : DelayManager H) :
  0 <= num_reordered_packets_ s <= kMaxNumReorderedPackets ->
  0 <= num_reordered_packets_ (step IsNewerTimestamp c s)
    <= kMaxNumReorderedPackets.
Proof.
  intros Hn. unfold kMaxNumReorderedPackets in *.
  destruct c as [d|d|d|d|t ts r reset|t]; cbn [step].
  - destruct (SetMinimumDelay_cases d s) as [[_ E]|[_ E]]; rewrite E; exact Hn.
  - destruct (SetMaximumDelay_cases d s) as [(_ & _ & E)|(_ & E)]; rewrite E;
      exact Hn.
  - destruct (SetBaseMinimumDelay_cases d s) as [[_ E]|[_ E]]; rewrite E;
      exact Hn.
  - unfold SetPacketAudioLength. destruct (d <=? 0); exact Hn.
  - unfold Update, kMaxNumReorderedPackets.
    destruct (r <=? 0); [exact Hn|].
    destruct (negb (first_packet_received_ s) || reset); [cbn; lia|].
    destruct (IsNewerTimestamp ts (last_timestamp_ s)); cbn [negb andb];
      [cbn; lia|].
    destruct (Z.ltb_spec (num_reordered_packets_ s) 5);
      cbn [snd num_reordered_packets_]; [|lia].
    rewrite int_add_small by (unfold in_int, INT_MIN, INT_MAX; lia). lia.
  - cbn. lia.
Qed.

(** X8: on every manager reached from construction the reorder counter
    stays between 0 and 5; and any in-order packet in the tracking state
    sets it back to 0, so only consecutive reordered packets count towards
    the limit. *)
Theorem reorder_counter_bounded (cs : list Call) (m b q : Z) (t : TickTimer)
  (h : H) :
  0 <= num_reordered_packets_
         (run IsNewerTimestamp cs (DelayManager_new m b q t h)) <= 5 /\
  (forall tick_timer ts sample_rate_hz (s : DelayManager H),
     0 < sample_rate_hz ->
     first_packet_received_ s = true ->
     IsNewerTimestamp ts (last_timestamp_ s) = true ->
     num_reordered_packets_
       (snd (Update IsNewerTimestamp tick_timer ts sample_rate_hz false s)) = 0).
Proof.
  split.
  - assert (Hinit : 0 <= num_reordered_packets_ (DelayManager_new m b q t h)
                    <= kMaxNumReorderedPackets)
      by (cbn; unfold kMaxNumReorderedPackets; lia).
    revert Hinit. generalize (DelayManager_new m b q t h) as s.
    unfold run. induction cs as [|c cs IH]; intros s Hn; cbn [fold_left].
    + exact Hn.
    + apply IH. apply reorder_counter_step. exact Hn.
  - intros tick_timer ts sample_rate_hz s Hr Hf Hn.
    destruct (Update_in_order IsNewerTimestamp tick_timer ts sample_rate_hz s
                Hr Hf Hn) as (hg & tg & E).
    rewrite E. reflexivity.
Qed.

(** X9: the tracking flag is a two-state machine: every [Update] with a
    valid rate sets [first_packet_received_], [Reset] clears it, and no
    other call (a setter, an [Update] with an invalid rate) changes it. *)
Theorem tracking_flag_transitions (c : Call) (s : DelayManager H) :
  (is_valid_Update c = true ->
   first_packet_received_ (step IsNewerTimestamp c s) = true) /\
  (is_Reset c = true ->
   first_packet_received_ (step IsNewerTimestamp c s) = false) /\
  (is_valid_Update c = false -> is_Reset c = false ->
   first_packet_received_ (step IsNewerTimestamp c s) = first_packet_received_ s).
Proof.
  destruct c as [d|d|d|d|t ts r reset|t];
    cbn [step is_valid_Update is_Reset];
    (split; [|split]); try discriminate; try reflexivity.
  - intros _ _.
    destruct (SetMinimumDelay_cases d s) as [[_ E]|[_ E]]; rewrite E; reflexivity.
  - intros _ _.
    destruct (SetMaximumDelay_cases d s) as [(_ & _ & E)|(_ & E)]; rewrite E;
      reflexivity.
  - intros _ _.
    destruct (SetBaseMinimumDelay_cases d s) as [[_ E]|[_ E]]; rewrite E;
      reflexivity.
  - intros _ _. unfold SetPacketAudioLength. destruct (d <=? 0); reflexivity.
  - intros Hr. apply Z.ltb_lt in Hr. unfold Update.
    destruct (Z.leb_spec r 0); [lia|].
    destruct (first_packet_received_ s) eqn:Hf; cbn [negb orb];
      [|reflexivity].
    destruct reset; [reflexivity|].
    destruct (negb (IsNewerTimestamp ts (last_timestamp_ s)) &&
              (num_reordered_packets_ s <? kMaxNumReorderedPackets));
      cbn; reflexivity.
  - intros Hr _. apply Z.ltb_ge in Hr.
    rewrite (Update_nonpositive_rate IsNewerTimestamp) by exact Hr. reflexivity.
Qed.

(** ** The history deque and the relative delay *)

Lemma pop_front_while_old_prefix (ts limit : Z) (new : PacketDelay)
  (h : list PacketDelay) :
  0 <= limit -> timestamp new = ts ->
  exists dropped kept,
    h = dropped ++ kept /\
    pop_front_while_old ts limit (h ++ [new]) = kept ++ [new] /\
    Forall (fun d => limit < age ts d) dropped /\
    match kept with
    | [] => True
    | d :: _ => age ts d <= limit
    end.
Proof.
  intros Hl Hts. induction h as [|d h IH]; cbn [app pop_front_while_old].
  - exists [], []. split; [reflexivity|].
    rewrite Hts, u32_sub_diag.
    destruct (Z.ltb_spec limit 0); [lia|]. repeat split. constructor.
  - fold (age ts d). destruct (Z.ltb_spec limit (age ts d)) as [Hold|Hyoung].
    + destruct IH as (dropped & kept & -> & E & Hdropped & Hkept).
      exists (d :: dropped), kept. split; [reflexivity|]. split; [exact E|].
      split; [constructor; assumption|exact Hkept].
    + exists [], (d :: h). split; [reflexivity|]. split; [reflexivity|].
      split; [constructor|exact Hyoung].
Qed.

(** X10: for a sample rate whose product with 2000 fits [int],
    [UpdateDelayHistory] appends the new sample at the back and removes
    exactly the longest prefix of samples more than
    [2000 * sample_rate_hz / 1000] timestamp units older than it: every
    removed sample is older than that, the first kept one is not, the deque
    is never left empty and grows by at most one. *)
Theorem UpdateDelayHistory_evicts_old_prefix (iat ts sample_rate_hz : Z)
  (h : list PacketDelay) :
  0 < sample_rate_hz ->
  kMaxHistoryMs * sample_rate_hz <= INT_MAX ->
  exists dropped kept,
    h = dropped ++ kept /\
    UpdateDelayHistory iat ts sample_rate_hz h =
      kept ++ [{| iat_delay_ms := iat; timestamp := ts |}] /\
    Forall (fun d => 2000 * sample_rate_hz / 1000 < age ts d) dropped /\
    match kept with
    | [] => True
    | d :: _ => age ts d <= 2000 * sample_rate_hz / 1000
    end /\
    UpdateDelayHistory iat ts sample_rate_hz h <> [] /\
    (length (UpdateDelayHistory iat ts sample_rate_hz h) <= S (length h))%nat.
Proof.
  intros Hr Hfit.
  destruct (history_limit_in_range sample_rate_hz Hr Hfit) as [Elim _].
  unfold spec_horizon in Elim.
  unfold UpdateDelayHistory.
  destruct (pop_front_while_old_prefix ts (history_limit sample_rate_hz)
              {| iat_delay_ms := iat; timestamp := ts |} h
              (history_limit_nonneg sample_rate_hz) eq_refl)
    as (dropped & kept & Eh & E & Hdropped & Hkept).
  exists dropped, kept. rewrite E. rewrite Elim in Hdropped, Hkept.
  split; [exact Eh|]. split; [reflexivity|]. split; [exact Hdropped|].
  split; [exact Hkept|]. split.
  - destruct kept; discriminate.
  - rewrite Eh. rewrite !length_app. cbn [length]. lia.
Qed.

Lemma positive_part_sum_app (a b : list Z) :
  positive_part_sum (a ++ b) = positive_part_sum a + positive_part_sum b.
Proof.
  unfold positive_part_sum. induction a as [|x a IH]; cbn [app fold_right].
  - lia.
  - rewrite IH. lia.
Qed.

Lemma relative_delay_loop_le (h : list PacketDelay) :
  forall acc,
  0 <= acc ->
  Forall in_int (map iat_delay_ms h) ->
  acc + positive_part_sum (map iat_delay_ms h) <= INT_MAX ->
  fold_left
    (fun relative_delay delay =>
       Z.max (int_add relative_delay (iat_delay_ms delay)) 0) h acc
  <= acc + positive_part_sum (map iat_delay_ms h).
Proof.
  induction h as [|d h IH]; intros acc Hacc Hin Hsum; cbn [fold_left map].
  - unfold positive_part_sum. cbn. lia.
  - unfold positive_part_sum in Hsum |- *. cbn [fold_right map] in Hsum |- *.
    fold (positive_part_sum (map iat_delay_ms h)) in Hsum |- *.
    inversion Hin as [|? ? Hd Hin']; subst.
    pose proof (positive_part_sum_nonneg (map iat_delay_ms h)) as Hp.
    rewrite int_add_small by (unfold in_int, INT_MIN, INT_MAX in *; lia).
    etransitivity; [apply IH; [lia|assumption|lia]|]. lia.
Qed.

(** X11: while the running sum fits [int], the relative arrival delay is at
    most the sum of the late samples of the window, it is zero when no
    sample of the window is late, and appending a sample adds it to the
    previous value and clamps at zero, so the result is never below the
    newest sample. *)
Theorem relative_delay_bounds (h : list PacketDelay) :
  sum_fits_int (map iat_delay_ms h) ->
  CalculateRelativePacketArrivalDelay h <= positive_part_sum (map iat_delay_ms h) /\
  (Forall (fun d => iat_delay_ms d <= 0) h ->
   CalculateRelativePacketArrivalDelay h = 0) /\
  (forall h' d, h = h' ++ [d] ->
   CalculateRelativePacketArrivalDelay h =
     Z.max (CalculateRelativePacketArrivalDelay h' + iat_delay_ms d) 0 /\
   iat_delay_ms d <= CalculateRelativePacketArrivalDelay h).
Proof.
  intros [Hin Hsum].
  assert (Hle : CalculateRelativePacketArrivalDelay h
                <= positive_part_sum (map iat_delay_ms h)).
  { unfold CalculateRelativePacketArrivalDelay.
    etransitivity; [apply relative_delay_loop_le; [lia|assumption|lia]|]. lia. }
  split; [exact Hle|]. split.
  - intros Hall.
    assert (Hz : positive_part_sum (map iat_delay_ms h) = 0).
    { clear -Hall. unfold positive_part_sum.
      induction Hall as [|d h Hd _ IH]; cbn [map fold_right]; [reflexivity|].
      rewrite IH. lia. }
    pose proof (CalculateRelativePacketArrivalDelay_nonneg h). lia.
  - intros h' d ->.
    rewrite map_app, Forall_app in Hin. destruct Hin as [Hin' Hd].
    inversion Hd as [|? ? Hdr _]; subst.
    rewrite map_app, positive_part_sum_app in Hsum.
    unfold positive_part_sum at 2 in Hsum. cbn [map fold_right] in Hsum.
    pose proof (positive_part_sum_nonneg (map iat_delay_ms h')) as Hp.
    assert (Hprev : CalculateRelativePacketArrivalDelay h'
                    <= positive_part_sum (map iat_delay_ms h')).
    { unfold CalculateRelativePacketArrivalDelay.
      etransitivity; [apply relative_delay_loop_le; [lia|assumption|lia]|]. lia. }
    pose proof (CalculateRelativePacketArrivalDelay_nonneg h') as Hnn.
    assert (E : CalculateRelativePacketArrivalDelay (h' ++ [d]) =
                Z.max (CalculateRelativePacketArrivalDelay h' + iat_delay_ms d) 0).
    { unfold CalculateRelativePacketArrivalDelay at 1. rewrite fold_left_app.
      cbn [fold_left]. fold (CalculateRelativePacketArrivalDelay h').
      rewrite int_add_small by (unfold in_int, INT_MIN, INT_MAX in *; lia).
      reflexivity. }
    split; [exact E|]. rewrite E. lia.
Qed.

Lemma iat_delay_of_in_int (tick_timer : TickTimer) (ts sample_rate_hz : Z)
  (s : DelayManager H) :
  in_int (iat_delay_of tick_timer ts sample_rate_hz s).
Proof. unfold iat_delay_of, int_sub. apply to_int32_range. Qed.

(** X12: an in-order packet that finds the history empty (the first one
    after a restart or after the reorder limit cleared it) is reported with
    [max(iat_delay_ms, 0)], the same value the reordered path reports, and
    leaves the history holding that one sample. *)
Theorem in_order_on_empty_history (tick_timer : TickTimer) (ts sample_rate_hz : Z)
  (s : DelayManager H) :
  0 < sample_rate_hz ->
  first_packet_received_ s = true ->
  IsNewerTimestamp ts (last_timestamp_ s) = true ->
  delay_history_ s = [] ->
  fst (Update IsNewerTimestamp tick_timer ts sample_rate_hz false s) =
    Some (Z.max (iat_delay_of tick_timer ts sample_rate_hz s) 0) /\
  delay_history_ (snd (Update IsNewerTimestamp tick_timer ts sample_rate_hz false s)) =
    [{| iat_delay_ms := iat_delay_of tick_timer ts sample_rate_hz s;
        timestamp := ts |}].
Proof.
  intros Hr Hf Hn Hempty.
  destruct (Update_in_order IsNewerTimestamp tick_timer ts sample_rate_hz s
              Hr Hf Hn) as (hg & tg & E).
  rewrite E. cbn [fst snd delay_history_]. rewrite Hempty.
  assert (Eh : UpdateDelayHistory (iat_delay_of tick_timer ts sample_rate_hz s)
                 ts sample_rate_hz [] =
               [{| iat_delay_ms := iat_delay_of tick_timer ts sample_rate_hz s;
                   timestamp := ts |}]).
  { unfold UpdateDelayHistory. cbn [app pop_front_while_old timestamp].
    rewrite u32_sub_diag.
    pose proof (history_limit_nonneg sample_rate_hz).
    destruct (Z.ltb_spec (history_limit sample_rate_hz) 0); [lia|reflexivity]. }
  rewrite Eh. split; [|reflexivity].
  unfold CalculateRelativePacketArrivalDelay. cbn [fold_left iat_delay_ms].
  rewrite int_add_small
    by (cbn; apply iat_delay_of_in_int).
  reflexivity.
Qed.

(** ** Timestamps across the wrap-around *)

Lemma signed_delta_across_wrap (last d : Z) :
  in_int d -> to_int32 (u32_sub (to_uint32 (last + d)) last) = d.
Proof.
  unfold in_int, INT_MIN, INT_MAX, to_int32, u32_sub, to_uint32, UINT32_MOD.
  intros Hd.
  rewrite Zminus_mod_idemp_l.
  replace (last + d - last) with d by ring.
  rewrite Zplus_mod_idemp_l.
  rewrite Z.mod_small by lia. lia.
Qed.

(** X13: the inter-arrival delay is computed from the signed timestamp
    distance however the 32-bit timestamp wraps: for a packet [d] timestamp
    units after [last_timestamp_] (modulo 2^32, [d] possibly negative), with
    [1000 * d] within [int], it is the elapsed time minus
    [1000 * d / sample_rate_hz] (truncated), and it is zero when the
    elapsed time is exactly what the timestamps predict. *)
Theorem iat_delay_across_wrap (tick_timer : TickTimer) (d sample_rate_hz : Z)
  (s : DelayManager H) :
  0 < sample_rate_hz ->
  in_int d ->
  in_int (1000 * d) ->
  in_int (ElapsedMs tick_timer (packet_iat_stopwatch_ s)) ->
  let ts := to_uint32 (last_timestamp_ s + d) in
  let elapsed := ElapsedMs tick_timer (packet_iat_stopwatch_ s) in
  iat_delay_of tick_timer ts sample_rate_hz s =
    to_int32 (elapsed - Z.quot (1000 * d) sample_rate_hz) /\
  (in_int (elapsed - Z.quot (1000 * d) sample_rate_hz) ->
   iat_delay_of tick_timer ts sample_rate_hz s =
     elapsed - Z.quot (1000 * d) sample_rate_hz) /\
  (1000 * d = elapsed * sample_rate_hz ->
   iat_delay_of tick_timer ts sample_rate_hz s = 0).
Proof.
  intros Hr Hd Hd1000 He ts elapsed.
  assert (E : iat_delay_of tick_timer ts sample_rate_hz s =
              to_int32 (elapsed - Z.quot (1000 * d) sample_rate_hz)).
  { unfold iat_delay_of, ts. rewrite signed_delta_across_wrap by exact Hd.
    rewrite int_mul_small by exact Hd1000.
    rewrite int_div_small by (apply quot_in_int; assumption).
    fold elapsed. rewrite (to_int32_small elapsed) by exact He.
    reflexivity. }
  split; [exact E|]. split.
  - intros Hfit. rewrite E. apply to_int32_small. exact Hfit.
  - intros Hexact. rewrite E, Hexact.
    rewrite Z.quot_mul by lia. rewrite Z.sub_diag. reflexivity.
Qed.

(** ** Reset *)

(** X14: [Reset()] brings a constructed manager back to its
    post-construction state (with the stopwatch restarted), and resetting
    twice is resetting once, provided resetting the histogram twice is
    resetting it once; in every case [Reset()] keeps the bound
    configuration and leaves the manager waiting for a first packet with
    the 80 ms start target, no packet length and an empty history. *)
Theorem Reset_restores_construction (t t' : TickTimer) (s : DelayManager H) :
  (forall m b q h,
     ResetHistogram (ResetHistogram h) = ResetHistogram h ->
     Reset t (DelayManager_new m b q t' h) = DelayManager_new m b q t h) /\
  (ResetHistogram (ResetHistogram (histogram_ s)) = ResetHistogram (histogram_ s) ->
   Reset t (Reset t' s) = Reset t s) /\
  (first_packet_received_ (Reset t s) = false /\
   target_level_ms_ (Reset t s) = kStartDelayMs /\
   packet_len_ms_ (Reset t s) = 0 /\
   delay_history_ (Reset t s) = [] /\
   num_reordered_packets_ (Reset t s) = 0 /\
   minimum_delay_ms_ (Reset t s) = minimum_delay_ms_ s /\
   maximum_delay_ms_ (Reset t s) = maximum_delay_ms_ s /\
   base_minimum_delay_ms_ (Reset t s) = base_minimum_delay_ms_ s /\
   effective_minimum_delay_ms_ (Reset t s) = effective_minimum_delay_ms_ s).
Proof.
  split; [|split].
  - intros m b q h Hidem. unfold DelayManager_new, Reset.
    cbn [max_packets_in_buffer_ histogram_ histogram_quantile_
         base_minimum_delay_ms_ effective_minimum_delay_ms_ minimum_delay_ms_
         maximum_delay_ms_ last_timestamp_].
    rewrite Hidem. reflexivity.
  - intros Hidem. unfold Reset.
    cbn [max_packets_in_buffer_ histogram_ histogram_quantile_
         base_minimum_delay_ms_ effective_minimum_delay_ms_ minimum_delay_ms_
         maximum_delay_ms_ last_timestamp_].
    rewrite Hidem. reflexivity.
  - repeat split; reflexivity.
Qed.

(** ** The size of the history *)

Lemma age_nonneg (newest : Z) (d : PacketDelay) : 0 <= age newest d.
Proof. unfold age. apply u32_sub_nonneg. Qed.

Lemma ages_strictly_descend_length (newest : Z) (h : list PacketDelay) :
  ages_strictly_descend newest h ->
  match h with
  | [] => True
  | d :: _ => Z.of_nat (length h) <= age newest d + 1
  end.
Proof.
  induction h as [|d rest IH]; [exact (fun _ => I)|].
  cbn [ages_strictly_descend]. intros [Hrest Hdesc].
  specialize (IH Hdesc). cbn [length]. rewrite Nat2Z.inj_succ.
  destruct rest as [|e rest'].
  - cbn. pose proof (age_nonneg newest d). lia.
  - inversion Hrest as [|? ? He _]; subst. lia.
Qed.

Lemma pop_front_while_old_compact (ts limit : Z) (h : list PacketDelay) :
  ages_strictly_descend ts h ->
  Forall (fun d => age ts d <= limit) (pop_front_while_old ts limit h) /\
  ages_strictly_descend ts (pop_front_while_old ts limit h).
Proof.
  induction h as [|d rest IH]; cbn [pop_front_while_old ages_strictly_descend].
  - intros _. split; [constructor|exact I].
  - intros [Hrest Hdesc]. fold (age ts d).
    destruct (Z.ltb_spec limit (age ts d)) as [Hold|Hin].
    + apply IH. assumption.
    + split.
      * constructor; [assumption|].
        eapply Forall_impl; [|exact Hrest]. cbn. intros e He. lia.
      * cbn [ages_strictly_descend]. split; assumption.
Qed.

Lemma ages_strictly_descend_push (last ts delta : Z) (new : PacketDelay)
  (h : list PacketDelay) :
  timestamp new = ts ->
  0 < delta ->
  Forall (fun e => age ts e = delta + age last e) h ->
  ages_strictly_descend last h ->
  ages_strictly_descend ts (h ++ [new]).
Proof.
  intros Hnew Hdelta.
  induction h as [|d rest IH]; cbn [app ages_strictly_descend].
  - intros _ _. split; [constructor|exact I].
  - intros Hshift [Hrest Hdesc].
    inversion Hshift as [|? ? Hd Hshift']; subst.
    split; [|apply IH; assumption].
    apply Forall_app. split.
    + rewrite Forall_forall in *. intros e He.
      rewrite (Hshift' e He), Hd. specialize (Hrest e He). cbn in Hrest. lia.
    + constructor; [|constructor].
      rewrite Hd. unfold age at 1. rewrite u32_sub_diag.
      pose proof (age_nonneg last d). lia.
Qed.

Lemma history_compact_frame (s s' : DelayManager H) (limit : Z) :
  delay_history_ s' = delay_history_ s ->
  last_timestamp_ s' = last_timestamp_ s ->
  history_compact s limit -> history_compact s' limit.
Proof. unfold history_compact. intros -> ->. exact (fun x => x). Qed.

Lemma history_compact_in_order (tick_timer : TickTimer) (ts r limit : Z)
  (s : DelayManager H) :
  0 < u32_sub ts (last_timestamp_ s) <= 2147483648 ->
  0 < r -> kMaxHistoryMs * r <= INT_MAX ->
  first_packet_received_ s = true ->
  IsNewerTimestamp ts (last_timestamp_ s) = true ->
  history_compact s limit ->
  history_compact (snd (Update IsNewerTimestamp tick_timer ts r false s))
    (spec_horizon r).
Proof.
  intros Hdelta Hr Hfit Hf Hn [Hlim Hok].
  destruct (Update_in_order IsNewerTimestamp tick_timer ts r s Hr Hf Hn)
    as (hg & tg & E).
  rewrite E. clear E. cbn [snd].
  destruct (history_limit_in_range r Hr Hfit) as [Elim Hrange].
  unfold history_compact. cbn [delay_history_ last_timestamp_].
  split; [exact Hrange|]. right.
  set (iat := iat_delay_of tick_timer ts r s).
  set (new := {| iat_delay_ms := iat; timestamp := ts |}).
  assert (Hdesc : ages_strictly_descend ts (delay_history_ s ++ [new])).
  { destruct Hok as [Hnil|(Hnew & Hdesc & Hwithin)].
    - rewrite Hnil. cbn. split; [constructor|exact I].
    - apply (ages_strictly_descend_push (last_timestamp_ s) ts
               (u32_sub ts (last_timestamp_ s)));
        [reflexivity|lia| |assumption].
      rewrite Forall_forall in *.
      intros e He. unfold age. apply u32_sub_chain.
      specialize (Hwithin e He). cbn in Hwithin. unfold age in Hwithin.
      unfold UINT32_MOD. lia. }
  destruct (UpdateDelayHistory_pushed iat ts r (delay_history_ s))
    as (dropped & kept & _ & Ekept).
  split; [rewrite Ekept; apply newest_timestamp_pushed|].
  unfold UpdateDelayHistory. fold new. rewrite Elim.
  destruct (pop_front_while_old_compact ts (spec_horizon r)
              (delay_history_ s ++ [new]) Hdesc) as [Hw Hd].
  split; assumption.
Qed.

Lemma history_compact_step (c : Call) (s : DelayManager H) (limit : Z) :
  (forall x y, IsNewerTimestamp x y = true -> 0 < u32_sub x y <= 2147483648) ->
  rate_in_range c ->
  history_compact s limit ->
  history_compact (step IsNewerTimestamp c s)
    (horizon_step IsNewerTimestamp c s limit).
Proof.
  intros Hnewer Hrate Hok.
  destruct c as [d|d|d|d|t ts r reset|t];
    try (cbn [horizon_step];
         apply (history_compact_frame s);
         [apply (setters_frame_history IsNewerTimestamp); exact I ..|exact Hok]).
  - cbn [step horizon_step rate_in_range] in *.
    destruct (Z.ltb_spec 0 r) as [Hr|Hr]; cbn [andb].
    2:{ rewrite (Update_nonpositive_rate IsNewerTimestamp) by lia. exact Hok. }
    destruct (first_packet_received_ s) eqn:Hf; cbn [andb].
    2:{ rewrite (Update_restart_any IsNewerTimestamp) by auto. cbn [snd].
        split; [apply Hok|left; reflexivity]. }
    destruct reset; cbn [negb andb].
    { rewrite (Update_restart_any IsNewerTimestamp) by auto. cbn [snd].
      split; [apply Hok|left; reflexivity]. }
    destruct (IsNewerTimestamp ts (last_timestamp_ s)) eqn:Hn.
    + apply (history_compact_in_order t ts r limit s); auto.
    + destruct (Z.lt_ge_cases (num_reordered_packets_ s) kMaxNumReorderedPackets)
        as [Hc|Hc].
      * destruct (Update_reordered_below_limit IsNewerTimestamp t ts r s
                    Hr Hf Hn Hc) as (hg & tg & E).
        rewrite E. cbn [snd].
        apply (history_compact_frame s); [reflexivity ..|exact Hok].
      * destruct (Update_reordered_at_limit IsNewerTimestamp t ts r s
                    Hr Hf Hn Hc) as (hg & tg & E).
        rewrite E. cbn [snd]. split; [apply Hok|left; reflexivity].
  - cbn [step horizon_step]. split; [apply Hok|left; reflexivity].
Qed.

Lemma run_horizon_history_compact (cs : list Call) :
  forall (s : DelayManager H) (limit : Z),
  (forall x y, IsNewerTimestamp x y = true -> 0 < u32_sub x y <= 2147483648) ->
  Forall rate_in_range cs ->
  history_compact s limit ->
  history_compact (fst (run_horizon IsNewerTimestamp cs s limit))
                  (snd (run_horizon IsNewerTimestamp cs s limit)).
Proof.
  induction cs as [|c cs IH]; intros s limit Hnewer Hrates Hok; cbn [run_horizon].
  - exact Hok.
  - inversion Hrates; subst.
    apply IH; [assumption|assumption|].
    apply history_compact_step; assumption.
Qed.

(** X15: after any sequence of calls on a constructed manager (sample
    rates with [2000 * sample_rate_hz] within [int]) the history holds at
    most horizon + 1 samples, where the horizon is
    [2000 * sample_rate_hz / 1000] for the rate of the call that appended
    the newest sample; and whenever the history is not empty its newest
    sample carries [last_timestamp_]. *)
Theorem history_length_bounded (cs : list Call) (m b q : Z) (t : TickTimer)
  (h : H) :
  (forall x y, IsNewerTimestamp x y = true -> 0 < u32_sub x y <= 2147483648) ->
  Forall rate_in_range cs ->
  let r := run_horizon IsNewerTimestamp cs (DelayManager_new m b q t h) 0 in
  fst r = run IsNewerTimestamp cs (DelayManager_new m b q t h) /\
  Z.of_nat (length (delay_history_ (fst r))) <= snd r + 1 /\
  (delay_history_ (fst r) <> [] ->
   newest_timestamp (delay_history_ (fst r)) = Some (last_timestamp_ (fst r))).
Proof.
  intros Hnewer Hrates r. split; [apply run_horizon_state|].
  assert (Hinit : history_compact (DelayManager_new m b q t h) 0).
  { split; [lia|left; reflexivity]. }
  destruct (run_horizon_history_compact cs _ 0 Hnewer Hrates Hinit)
    as [Hlim Hok].
  fold r in Hlim, Hok. destruct Hok as [Hnil|(Hnew & Hdesc & Hwithin)].
  - rewrite Hnil. cbn. split; [lia|]. intros Hne. contradiction.
  - split; [|intros _; exact Hnew].
    pose proof (ages_strictly_descend_length _ _ Hdesc) as Hlen.
    destruct (delay_history_ (fst r)) as [|d rest]; [cbn; lia|].
    inversion Hwithin as [|? ? Hd _]; subst. lia.
Qed.

(** ** The anchor of the inter-arrival measurement, and the packet length *)

(** X16: an [Update] with a valid rate either keeps the anchor of the
    inter-arrival measurement (last timestamp and stopwatch, together) or
    moves both to the current packet and zeroes the reorder counter; it
    keeps them exactly for a tolerated reordered packet (tracking, no reset
    flag, not newer, fewer than 5 reordered packets so far). *)
Theorem anchor_moves_together (tick_timer : TickTimer) (ts sample_rate_hz : Z)
  (reset : bool) (s : DelayManager H) :
  0 < sample_rate_hz ->
  let s' := snd (Update IsNewerTimestamp tick_timer ts sample_rate_hz reset s) in
  if first_packet_received_ s && negb reset
     && negb (IsNewerTimestamp ts (last_timestamp_ s))
     && (num_reordered_packets_ s <? 5)
  then last_timestamp_ s' = last_timestamp_ s /\
       packet_iat_stopwatch_ s' = packet_iat_stopwatch_ s /\
       delay_history_ s' = delay_history_ s
  else last_timestamp_ s' = ts /\
       packet_iat_stopwatch_ s' = GetNewStopwatch tick_timer /\
       num_reordered_packets_ s' = 0.
Proof.
  intros Hr s'. subst s'. unfold Update, kMaxNumReorderedPackets.
  destruct (Z.leb_spec sample_rate_hz 0); [lia|].
  destruct (first_packet_received_ s); cbn [negb orb andb];
    [|repeat split; reflexivity].
  destruct reset; cbn [negb andb]; [repeat split; reflexivity|].
  destruct (IsNewerTimestamp ts (last_timestamp_ s)); cbn [negb andb];
    [repeat split; reflexivity|].
  destruct (num_reordered_packets_ s <? 5); repeat split; reflexivity.
Qed.

(** X17: [SetPacketAudioLength] returns 0 exactly for a positive length and
    -1 otherwise; a rejected call changes nothing, an accepted one stores
    the length and nothing else; the packet length changes through no other
    call than this one and [Reset], which zeroes it. *)
Theorem SetPacketAudioLength_contract (length_ms : Z) (c : Call)
  (s : DelayManager H) :
  (fst (SetPacketAudioLength length_ms s) = 0 <-> 0 < length_ms) /\
  (fst (SetPacketAudioLength length_ms s) = -1 <-> length_ms <= 0) /\
  (length_ms <= 0 -> snd (SetPacketAudioLength length_ms s) = s) /\
  (0 < length_ms ->
   snd (SetPacketAudioLength length_ms s) = set_packet_len_ms length_ms s /\
   packet_len_ms_ (snd (SetPacketAudioLength length_ms s)) = length_ms) /\
  match c with
  | CallSetPacketAudioLength _ => True
  | CallReset _ => packet_len_ms_ (step IsNewerTimestamp c s) = 0
  | _ => packet_len_ms_ (step IsNewerTimestamp c s) = packet_len_ms_ s
  end.
Proof.
  unfold SetPacketAudioLength.
  split; [|split; [|split; [|split]]].
  - destruct (Z.leb_spec length_ms 0); cbn [fst]; split; intros;
      try discriminate; try lia; reflexivity.
  - destruct (Z.leb_spec length_ms 0); cbn [fst]; split; intros;
      try discriminate; try lia; reflexivity.
  - intros Hl. destruct (Z.leb_spec length_ms 0); [reflexivity|lia].
  - intros Hl. destruct (Z.leb_spec length_ms 0); [lia|].
    split; reflexivity.
  - destruct c as [d|d|d|d|t ts r reset|t]; cbn [step]; try exact I;
      try reflexivity.
    + destruct (SetMinimumDelay_cases d s) as [[_ E]|[_ E]]; rewrite E;
        reflexivity.
    + destruct (SetMaximumDelay_cases d s) as [(_ & _ & E)|(_ & E)]; rewrite E;
        reflexivity.
    + destruct (SetBaseMinimumDelay_cases d s) as [[_ E]|[_ E]]; rewrite E;
        reflexivity.
    + apply (Update_frame_config IsNewerTimestamp t ts r reset s).
Qed.

End MoreProperties.

(** * The further properties on concrete inputs *)

Lemma SetMinimumDelay_contract_witness :
  0 <= 100 <= MinimumDelayUpperBound fresh_manager /\
  fst (SetMinimumDelay 100 fresh_manager) = true /\
  minimum_delay_ms_ (snd (SetMinimumDelay 100 fresh_manager)) = 100 /\
  100 <= effective_minimum_delay_ms_ (snd (SetMinimumDelay 100 fresh_manager)).
Proof.
  destruct (SetMinimumDelay_contract 100 fresh_manager)
    as (Hiff & Hstore & _).
  assert (Hin : 0 <= 100 <= MinimumDelayUpperBound fresh_manager)
    by (vm_compute; split; discriminate).
  assert (Hok : fst (SetMinimumDelay 100 fresh_manager) = true)
    by (apply Hiff; exact Hin).
  destruct (Hstore Hok) as (Hmin & _ & Heff).
  repeat split; assumption || apply Hin.
Defined.

Lemma SetBaseMinimumDelay_contract_witness :
  0 <= 500 <= 10000 /\
  fst (SetBaseMinimumDelay 500 fresh_manager) = true /\
  GetBaseMinimumDelay (snd (SetBaseMinimumDelay 500 fresh_manager)) = 500.
Proof.
  destruct (SetBaseMinimumDelay_contract 500 fresh_manager)
    as (Hiff & Hstore & _).
  assert (Hin : 0 <= 500 <= 10000) by lia.
  assert (Hok : fst (SetBaseMinimumDelay 500 fresh_manager) = true)
    by (apply Hiff; exact Hin).
  destruct (Hstore Hok) as (Hget & _).
  split; [exact Hin|]. split; [exact Hok|exact Hget].
Defined.

Lemma bound_configuration_frame_witness :
  is_bound_setter (CallUpdate 20 160 8000 false) = false /\
  effective_minimum_delay_ms_
    (step newer_by_signed_delta (CallUpdate 20 160 8000 false) scenario_manager) =
  effective_minimum_delay_ms_ scenario_manager.
Proof.
  destruct (bound_configuration_frame newer_by_signed_delta
              (CallUpdate 20 160 8000 false) scenario_manager) as [Hframe _].
  split; [reflexivity|]. apply (Hframe eq_refl).
Defined.

Lemma bounds_config_ok_reachable_witness :
  0 <= 0 <= 10000 /\
  bounds_config_ok
    (run newer_by_signed_delta
       [CallSetPacketAudioLength 20; CallSetMinimumDelay 40;
        CallSetMaximumDelay 50; CallUpdate 0 0 8000 false]
       fresh_manager).
Proof.
  split; [lia|].
  apply (bounds_config_ok_reachable newer_by_signed_delta
           [CallSetPacketAudioLength 20; CallSetMinimumDelay 40;
            CallSetMaximumDelay 50; CallUpdate 0 0 8000 false]
           200 0 1041529569 0 empty_tally).
  lia.
Defined.

Lemma Update_result_witness :
  (0 <= 0 \/ first_packet_received_ tracking_manager = false \/ false = true) /\
  fst (Update newer_by_signed_delta 25 160 0 false tracking_manager) = None /\
  fst (Update newer_by_signed_delta 25 160 8000 false tracking_manager) = Some 5 /\
  0 <= 5 <= INT_MAX.
Proof.
  assert (Hcase : 0 <= 0 \/ first_packet_received_ tracking_manager = false \/
                  false = true) by (left; lia).
  destruct (Update_result newer_by_signed_delta 25 160 0 false tracking_manager)
    as [Hnone _].
  destruct (Update_result newer_by_signed_delta 25 160 8000 false tracking_manager)
    as [_ Hsome].
  assert (E : fst (Update newer_by_signed_delta 25 160 8000 false tracking_manager)
              = Some 5) by reflexivity.
  split; [exact Hcase|]. split; [apply Hnone; exact Hcase|].
  split; [exact E|]. apply (Hsome 5 E).
Defined.

Lemma histogram_is_fed_valid_buckets_witness :
  fst (Update newer_by_signed_delta 25 160 8000 false tracking_manager) = Some 5 /\
  histogram_ (snd (Update newer_by_signed_delta 25 160 8000 false tracking_manager)) =
    Add 0 (histogram_ tracking_manager).
Proof.
  destruct (histogram_is_fed_valid_buckets newer_by_signed_delta 25 160 8000
              false tracking_manager) as [_ Hsome].
  assert (E : fst (Update newer_by_signed_delta 25 160 8000 false tracking_manager)
              = Some 5) by reflexivity.
  split; [exact E|].
  destruct (Hsome 5 E) as [_ Eh]. exact Eh.
Defined.

Lemma target_within_buffer_witness :
  0 < 8000 /\
  first_packet_received_ packetized_manager = true /\
  0 < packet_len_ms_ packetized_manager /\
  target_level_ms_
    (snd (Update newer_by_signed_delta 25 160 8000 false packetized_manager))
    <= 3000.
Proof.
  assert (Hr : 0 < 8000) by lia.
  assert (Hf : first_packet_received_ packetized_manager = true) by reflexivity.
  assert (Hl : 0 < packet_len_ms_ packetized_manager) by reflexivity.
  destruct (target_within_buffer newer_by_signed_delta 25 160 8000
              packetized_manager Hr Hf Hl) as (Hceil & _).
  repeat split; assumption.
Defined.

Lemma reorder_counter_bounded_witness :
  0 < 8000 /\
  first_packet_received_ tracking_manager = true /\
  newer_by_signed_delta 160 (last_timestamp_ tracking_manager) = true /\
  num_reordered_packets_
    (snd (Update newer_by_signed_delta 25 160 8000 false tracking_manager)) = 0 /\
  0 <= num_reordered_packets_
         (run newer_by_signed_delta
            [CallUpdate 0 0 8000 false; CallUpdate 10 4294967136 8000 false]
            fresh_manager) <= 5.
Proof.
  destruct (reorder_counter_bounded newer_by_signed_delta
              [CallUpdate 0 0 8000 false; CallUpdate 10 4294967136 8000 false]
              200 0 1041529569 0 empty_tally) as [Hbound Hzero].
  assert (Hr : 0 < 8000) by lia.
  assert (Hf : first_packet_received_ tracking_manager = true) by reflexivity.
  assert (Hn : newer_by_signed_delta 160 (last_timestamp_ tracking_manager) = true)
    by reflexivity.
  split; [exact Hr|]. split; [exact Hf|]. split; [exact Hn|].
  split; [exact (Hzero 25 160 8000 tracking_manager Hr Hf Hn)|exact Hbound].
Defined.

Lemma tracking_flag_transitions_witness :
  is_valid_Update (CallUpdate 0 0 8000 false) = true /\
  first_packet_received_
    (step newer_by_signed_delta (CallUpdate 0 0 8000 false) fresh_manager) = true /\
  is_Reset (CallReset 7) = true /\
  first_packet_received_
    (step newer_by_signed_delta (CallReset 7) tracking_manager) = false.
Proof.
  destruct (tracking_flag_transitions newer_by_signed_delta
              (CallUpdate 0 0 8000 false) fresh_manager) as (Hset & _).
  destruct (tracking_flag_transitions newer_by_signed_delta
              (CallReset 7) tracking_manager) as (_ & Hclear & _).
  split; [reflexivity|]. split; [exact (Hset eq_refl)|].
  split; [reflexivity|exact (Hclear eq_refl)].
Defined.

Lemma relative_delay_bounds_witness :
  sum_fits_int
    (map iat_delay_ms
       [{| iat_delay_ms := 5; timestamp := 160 |};
        {| iat_delay_ms := -3; timestamp := 320 |}]) /\
  CalculateRelativePacketArrivalDelay
    [{| iat_delay_ms := 5; timestamp := 160 |};
     {| iat_delay_ms := -3; timestamp := 320 |}] <= 5 /\
  -3 <= CalculateRelativePacketArrivalDelay
          [{| iat_delay_ms := 5; timestamp := 160 |};
           {| iat_delay_ms := -3; timestamp := 320 |}].
Proof.
  assert (Hfit : sum_fits_int
            (map iat_delay_ms
               [{| iat_delay_ms := 5; timestamp := 160 |};
                {| iat_delay_ms := -3; timestamp := 320 |}])).
  { split.
    - repeat constructor; vm_compute; discriminate.
    - vm_compute; discriminate. }
  destruct (relative_delay_bounds
              [{| iat_delay_ms := 5; timestamp := 160 |};
               {| iat_delay_ms := -3; timestamp := 320 |}] Hfit)
    as (Hle & _ & Hlast).
  split; [exact Hfit|]. split; [exact Hle|].
  apply (Hlast [{| iat_delay_ms := 5; timestamp := 160 |}]
               {| iat_delay_ms := -3; timestamp := 320 |} eq_refl).
Defined.

Lemma in_order_on_empty_history_witness :
  0 < 8000 /\
  first_packet_received_ tracking_manager = true /\
  newer_by_signed_delta 160 (last_timestamp_ tracking_manager) = true /\
  delay_history_ tracking_manager = [] /\
  fst (Update newer_by_signed_delta 25 160 8000 false tracking_manager) =
    Some (Z.max (iat_delay_of 25 160 8000 tracking_manager) 0).
Proof.
  assert (Hr : 0 < 8000) by lia.
  assert (Hf : first_packet_received_ tracking_manager = true) by reflexivity.
  assert (Hn : newer_by_signed_delta 160 (last_timestamp_ tracking_manager) = true)
    by reflexivity.
  assert (He : delay_history_ tracking_manager = []) by reflexivity.
  destruct (in_order_on_empty_history newer_by_signed_delta 25 160 8000
              tracking_manager Hr Hf Hn He) as [Hret _].
  repeat split; assumption.
Defined.

Lemma iat_delay_across_wrap_witness :
  0 < 8000 /\ in_int 320 /\ in_int (1000 * 320) /\
  in_int (ElapsedMs 40 (packet_iat_stopwatch_ wrapping_manager)) /\
  1000 * 320 = ElapsedMs 40 (packet_iat_stopwatch_ wrapping_manager) * 8000 /\
  to_uint32 (last_timestamp_ wrapping_manager + 320) = 160 /\
  iat_delay_of 40 (to_uint32 (last_timestamp_ wrapping_manager + 320)) 8000
    wrapping_manager = 0.
Proof.
  assert (Hr : 0 < 8000) by lia.
  assert (Hd : in_int 320) by (vm_compute; split; discriminate).
  assert (Hd1000 : in_int (1000 * 320)) by (vm_compute; split; discriminate).
  assert (He : in_int (ElapsedMs 40 (packet_iat_stopwatch_ wrapping_manager)))
    by (vm_compute; split; discriminate).
  assert (Hexact : 1000 * 320 =
                   ElapsedMs 40 (packet_iat_stopwatch_ wrapping_manager) * 8000)
    by reflexivity.
  destruct (iat_delay_across_wrap 40 320 8000 wrapping_manager Hr Hd Hd1000 He)
    as (_ & _ & Hzero).
  split; [exact Hr|]. split; [exact Hd|]. split; [exact Hd1000|].
  split; [exact He|]. split; [exact Hexact|]. split; [reflexivity|].
  exact (Hzero Hexact).
Defined.

Lemma Reset_restores_construction_witness :
  ResetHistogram (ResetHistogram empty_tally) = ResetHistogram empty_tally /\
  Reset 9 fresh_manager = DelayManager_new 200 0 1041529569 9 empty_tally.
Proof.
  assert (Hidem : ResetHistogram (ResetHistogram empty_tally) =
                  ResetHistogram empty_tally) by reflexivity.
  destruct (Reset_restores_construction 9 0 fresh_manager) as (Hnew & _).
  split; [exact Hidem|].
  exact (Hnew 200 0 1041529569 empty_tally Hidem).
Defined.

Lemma history_length_bounded_witness :
  (forall x y, newer_by_signed_delta x y = true -> 0 < u32_sub x y <= 2147483648) /\
  Forall rate_in_range
    [CallUpdate 0 0 8000 false; CallUpdate 20 160 8000 false;
     CallUpdate 40 320 8000 false] /\
  Z.of_nat
    (length
       (delay_history_
          (run newer_by_signed_delta
             [CallUpdate 0 0 8000 false; CallUpdate 20 160 8000 false;
              CallUpdate 40 320 8000 false]
             fresh_manager))) <= 16000 + 1.
Proof.
  assert (Hrates : Forall rate_in_range
            [CallUpdate 0 0 8000 false; CallUpdate 20 160 8000 false;
             CallUpdate 40 320 8000 false])
    by (repeat constructor; vm_compute; discriminate).
  destruct (history_length_bounded newer_by_signed_delta
              [CallUpdate 0 0 8000 false; CallUpdate 20 160 8000 false;
               CallUpdate 40 320 8000 false]
              200 0 1041529569 0 empty_tally
              newer_by_signed_delta_bounds Hrates) as (Estate & Hlen & _).
  split; [exact newer_by_signed_delta_bounds|]. split; [exact Hrates|].
  rewrite Estate in Hlen. exact Hlen.
Defined.

Lemma anchor_moves_together_witness :
  0 < 8000 /\
  last_timestamp_
    (snd (Update newer_by_signed_delta 10 4294967136 8000 false tracking_manager)) =
    last_timestamp_ tracking_manager /\
  packet_iat_stopwatch_
    (snd (Update newer_by_signed_delta 10 4294967136 8000 false tracking_manager)) =
    packet_iat_stopwatch_ tracking_manager.
Proof.
  assert (Hr : 0 < 8000) by lia.
  pose proof (anchor_moves_together newer_by_signed_delta 10 4294967136 8000
                false tracking_manager Hr) as Hanchor.
  cbv zeta in Hanchor.
  change (first_packet_received_ tracking_manager && negb false
          && negb (newer_by_signed_delta 4294967136
                     (last_timestamp_ tracking_manager))
          && (num_reordered_packets_ tracking_manager <? 5)) with true in Hanchor.
  destruct Hanchor as (Hlast & Hsw & _).
  split; [exact Hr|]. split; [exact Hlast|exact Hsw].
Defined.

Lemma SetPacketAudioLength_contract_witness :
  0 < 20 /\
  fst (SetPacketAudioLength 20 fresh_manager) = 0 /\
  packet_len_ms_ (snd (SetPacketAudioLength 20 fresh_manager)) = 20 /\
  -5 <= 0 /\
  snd (SetPacketAudioLength (-5) scenario_manager) = scenario_manager.
Proof.
  destruct (SetPacketAudioLength_contract newer_by_signed_delta 20
              (CallReset 0) fresh_manager) as (Hzero & _ & _ & Hstore & _).
  destruct (SetPacketAudioLength_contract newer_by_signed_delta (-5)
              (CallReset 0) scenario_manager) as (_ & _ & Hkeep & _).
  assert (Hpos : 0 < 20) by lia.
  assert (Hneg : -5 <= 0) by lia.
  destruct (Hstore Hpos) as [_ Hlen].
  split; [exact Hpos|]. split; [apply Hzero; exact Hpos|].
  split; [exact Hlen|]. split; [exact Hneg|exact (Hkeep Hneg)].
Defined.

Lemma UpdateDelayHistory_evicts_old_prefix_witness :
  0 < 8000 /\
  kMaxHistoryMs * 8000 <= INT_MAX /\
  UpdateDelayHistory 3 16050 8000
    [{| iat_delay_ms := 0; timestamp := 0 |};
     {| iat_delay_ms := 5; timestamp := 100 |}] =
    [{| iat_delay_ms := 5; timestamp := 100 |};
     {| iat_delay_ms := 3; timestamp := 16050 |}] /\
  exists dropped kept,
    [{| iat_delay_ms := 0; timestamp := 0 |};
     {| iat_delay_ms := 5; timestamp := 100 |}] = dropped ++ kept /\
    Forall (fun d => 2000 * 8000 / 1000 < age 16050 d) dropped /\
    match kept with
    | [] => True
    | d :: _ => age 16050 d <= 2000 * 8000 / 1000
    end.
Proof.
  assert (Hr : 0 < 8000) by lia.
  assert (Hfit : kMaxHistoryMs * 8000 <= INT_MAX) by (vm_compute; discriminate).
  destruct (UpdateDelayHistory_evicts_old_prefix 3 16050 8000
              [{| iat_delay_ms := 0; timestamp := 0 |};
               {| iat_delay_ms := 5; timestamp := 100 |}] Hr Hfit)
    as (dropped & kept & Eh & _ & Hdropped & Hkept & _).
  split; [exact Hr|]. split; [exact Hfit|]. split; [reflexivity|].
  exists dropped, kept.
  split; [exact Eh|]. split; [exact Hdropped|exact Hkept].
Defined.
